(** * Osmosis staking withdrawal: the Confirm step

    A shallow embedding of
    [src/features/defi/providers/osmosis/components/OsmosisManager/Staking/Withdraw/components/Confirm.tsx]:
    the decimal arithmetic it relies on, the shared withdraw state and its
    actions, the asynchronous [handleConfirm] callback with its
    try / catch / finally structure, and the gas-balance check. *)

From Stdlib Require Import NArith ZArith Znumtheory QArith Qpower Qround Qcanon Lqa
  String Ascii List Bool Lia.
Import ListNotations.

Local Open Scope string_scope.

(** ** Decimal arithmetic: [lib/bignumber] *)

Module BigNumber.

(** Modelled from the spec: [lib/bignumber/bignumber] ([bn], [bnOrZero]) and
    the decimal type behind it are imported by the component but are not in
    its file.  The spec describes them as arbitrary-precision decimal
    arithmetic that is never floating point, with absent or malformed input
    falling back to zero.  A finite value is therefore an exact rational
    here, and every operation below ([times], [minus], [div], [pow], [gte],
    [toString]) is exact on finite values; the two kinds of non-finite value
    a decimal constructor can yield are kept, because the zero fallback is
    what filters them out. *)
Inductive BigNumber : Type :=
| Num (q : Q)
| NaN
| Infinity (negative : bool).

(** What the constructor accepts: a string or a (whole) number literal. *)
Inductive Value : Type :=
| Str (s : string)
| Int (n : Z).

Definition isFinite (x : BigNumber) : bool :=
  match x with Num _ => true | _ => false end.

Definition isZeroQ (q : Q) : bool := (Qnum q =? 0)%Z.
Definition isNegativeQ (q : Q) : bool := (Qnum q <? 0)%Z.

(** *** Reading a decimal numeral *)

Definition digit_of_ascii (c : ascii) : option N :=
  let n := N_of_ascii c in
  if ((48 <=? n) && (n <=? 57))%N then Some (n - 48)%N else None.

Fixpoint digits_value (s : string) (acc : N) : option N :=
  match s with
  | EmptyString => Some acc
  | String c rest =>
      match digit_of_ascii c with
      | Some d => digits_value rest (acc * 10 + d)%N
      | None => None
      end
  end.

(** Cut [s] at the first character satisfying [p]; the second component is
    what follows that character, when there is one. *)
Fixpoint split_at (p : ascii -> bool) (s : string) : string * option string :=
  match s with
  | EmptyString => (EmptyString, None)
  | String c rest =>
      if p c then (EmptyString, Some rest)
      else let '(a, b) := split_at p rest in (String c a, b)
  end.

Definition is_dot (c : ascii) : bool := Ascii.eqb c "."%char.
Definition is_exp_mark (c : ascii) : bool :=
  Ascii.eqb c "e"%char || Ascii.eqb c "E"%char.

Definition nonempty_digits (s : string) : option N :=
  match s with
  | EmptyString => None
  | _ => digits_value s 0
  end.

Definition parse_exponent (s : string) : option Z :=
  match s with
  | String "-"%char rest => option_map (fun n => (- Z.of_N n)%Z) (nonempty_digits rest)
  | String "+"%char rest => option_map Z.of_N (nonempty_digits rest)
  | _ => option_map Z.of_N (nonempty_digits s)
  end.

(** digits, optionally a point and more digits, optionally an exponent;
    at least one digit before the exponent mark. *)
Definition parse_unsigned (s : string) : option Q :=
  let '(mantissa, expo) := split_at is_exp_mark s in
  let '(int_part, frac) := split_at is_dot mantissa in
  let frac_part := match frac with Some f => f | None => EmptyString end in
  if (String.eqb int_part EmptyString && String.eqb frac_part EmptyString)%bool
  then None
  else
    match digits_value (int_part ++ frac_part) 0,
          match expo with None => Some 0%Z | Some e => parse_exponent e end with
    | Some c, Some e =>
        Some (inject_Z (Z.of_N c) * (10 # 1) ^ (e - Z.of_nat (String.length frac_part)))%Q
    | _, _ => None
    end.

Definition parse (s : string) : BigNumber :=
  if String.eqb s "Infinity" then Infinity false
  else if String.eqb s "-Infinity" then Infinity true
  else
    match s with
    | String "-"%char rest =>
        match parse_unsigned rest with
        | Some q => Num (- q)
        | None => NaN
        end
    | _ =>
        match parse_unsigned s with
        | Some q => Num q
        | None => NaN
        end
    end.

(** Modelled from the spec: [bn] builds a decimal from a numeral string or a
    number literal; a string that is not a numeral gives [NaN]. *)
Definition bn (n : Value) : BigNumber :=
  match n with
  | Str s => parse s
  | Int z => Num (inject_Z z)
  end.

(** The empty string counts as absent, like [null] and [undefined]. *)
Definition usable (n : option Value) : option Value :=
  match n with
  | Some (Str EmptyString) => None
  | _ => n
  end.

(** Modelled from the spec: [bnOrZero] is [bn] with the zero fallback, for
    an absent input and for one that does not denote a finite decimal. *)
Definition bnOrZero (n : option Value) : BigNumber :=
  let value := bn (match usable n with Some v => v | None => Int 0 end) in
  if isFinite value then value else bn (Int 0).

(** *** Arithmetic

    Exact on finite values; [NaN] is contagious and infinities follow the
    usual sign rules. *)

Definition times (x y : BigNumber) : BigNumber :=
  match x, y with
  | NaN, _ | _, NaN => NaN
  | Num a, Num b => Num (a * b)
  | Infinity s, Infinity t => Infinity (xorb s t)
  | Infinity s, Num b | Num b, Infinity s =>
      if isZeroQ b then NaN else Infinity (xorb s (isNegativeQ b))
  end.

Definition minus (x y : BigNumber) : BigNumber :=
  match x, y with
  | NaN, _ | _, NaN => NaN
  | Num a, Num b => Num (a - b)
  | Infinity s, Infinity t => if Bool.eqb s t then NaN else Infinity s
  | Infinity s, Num _ => Infinity s
  | Num _, Infinity t => Infinity (negb t)
  end.

Definition div (x y : BigNumber) : BigNumber :=
  match x, y with
  | NaN, _ | _, NaN => NaN
  | Infinity _, Infinity _ => NaN
  | Infinity s, Num b => Infinity (xorb s (isNegativeQ b))
  | Num _, Infinity _ => Num 0
  | Num a, Num b =>
      if isZeroQ b
      then (if isZeroQ a then NaN else Infinity (isNegativeQ a))
      else Num (a / b)
  end.

(** Exponentiation by a non-negative whole exponent. *)
Definition pow (x : BigNumber) (n : nat) : BigNumber :=
  match x with
  | NaN => NaN
  | Num a => Num (a ^ Z.of_nat n)
  | Infinity s =>
      match n with
      | O => Num 1
      | _ => Infinity (s && Nat.odd n)
      end
  end.

Definition gte (x y : BigNumber) : bool :=
  match x, y with
  | NaN, _ | _, NaN => false
  | Num a, Num b => Qle_bool b a
  | Infinity false, _ => true
  | Infinity true, Infinity true => true
  | Infinity true, _ => false
  | Num _, Infinity t => t
  end.

(** *** Rendering *)

Definition ascii_of_digit (d : N) : ascii := ascii_of_N (48 + d).

(** The decimal numeral of a positive number, most significant digit
    first; [fuel] bounds the number of digits. *)
Fixpoint digits_of (fuel : nat) (n : N) (acc : string) : string :=
  match fuel with
  | O => acc
  | S fuel' =>
      let acc' := String (ascii_of_digit (n mod 10)) acc in
      if (n / 10 =? 0)%N then acc' else digits_of fuel' (n / 10) acc'
  end.

Definition string_of_N (n : N) : string :=
  digits_of (S (N.to_nat (N.log2 n))) n EmptyString.

Definition string_of_Z (z : Z) : string :=
  match z with
  | Z0 => "0"
  | Zpos p => string_of_N (Npos p)
  | Zneg p => "-" ++ string_of_N (Npos p)
  end.

(** Long division of [r / d] (with [r < d]) into decimal places, until the
    remainder vanishes. *)
Fixpoint fraction_digits (fuel : nat) (r d : N) : string :=
  match fuel with
  | O => EmptyString
  | S fuel' =>
      if (r =? 0)%N then EmptyString
      else String (ascii_of_digit ((r * 10) / d))
                  (fraction_digits fuel' ((r * 10) mod d) d)
  end.

(** Modelled from the spec: amounts are rendered in plain positional
    notation, the whole part followed by the decimal places the value has,
    if any. *)
Definition toString (x : BigNumber) : string :=
  match x with
  | NaN => "NaN"
  | Infinity false => "Infinity"
  | Infinity true => "-Infinity"
  | Num q =>
      let r := Qred q in
      let d := Npos (Qden r) in
      let a := Z.abs_N (Qnum r) in
      let whole := (a / d)%N in
      let rest := (a mod d)%N in
      let places := fraction_digits (Pos.size_nat (Qden r)) rest d in
      let sign := if isNegativeQ r then "-" else EmptyString in
      match places with
      | EmptyString => string_of_Z (if isNegativeQ r then - Z.of_N whole else Z.of_N whole)
      | _ => sign ++ string_of_N whole ++ "." ++ places
      end
  end.

End BigNumber.

Import BigNumber.

(** ** The shared withdraw state: [StakingWithdrawContext]

    Modelled from the spec: the context, its state type and its action type
    are declared next to the component, not in its file.  The fields are
    those of the spec's workflow state; [txStatus] sits inside [withdraw],
    which is where the payload of [SET_WITHDRAW] puts it, and is [None]
    while unset. *)

Inductive TxStatus : Type := success | failed.

Record Withdraw : Type := {
  cryptoAmount : string;
  estimatedGasCrypto : option string;
  txStatus : option TxStatus
}.

Record State : Type := {
  loading : bool;
  withdraw : Withdraw;
  txid : option string;
  accountId : option string
}.

(** The payload of [SET_WITHDRAW] is a partial [withdraw] object. *)
Record WithdrawPayload : Type := {
  set_cryptoAmount : option string;
  set_estimatedGasCrypto : option string;
  set_txStatus : option TxStatus
}.

Inductive OsmosisStakingWithdrawAction : Type :=
| SET_LOADING (payload : bool)
| SET_WITHDRAW (payload : WithdrawPayload)
| SET_TXID (payload : string).

Definition merge_withdraw (w : Withdraw) (p : WithdrawPayload) : Withdraw :=
  {| cryptoAmount :=
       match set_cryptoAmount p with Some a => a | None => cryptoAmount w end;
     estimatedGasCrypto :=
       match set_estimatedGasCrypto p with
       | Some g => Some g
       | None => estimatedGasCrypto w
       end;
     txStatus :=
       match set_txStatus p with Some t => Some t | None => txStatus w end |}.

(** Modelled from the spec: the reducer behind [dispatch] lives with
    [StakingWithdrawContext], outside the component's file.  Per the spec's
    data model each action writes the one field it names: [SET_LOADING] the
    [loading] flag, [SET_WITHDRAW] the given fields of [withdraw] (here the
    transaction status), [SET_TXID] the transaction identifier. *)
Definition reducer (s : State) (a : OsmosisStakingWithdrawAction) : State :=
  match a with
  | SET_LOADING b =>
      {| loading := b; withdraw := withdraw s;
         txid := txid s; accountId := accountId s |}
  | SET_WITHDRAW p =>
      {| loading := loading s; withdraw := merge_withdraw (withdraw s) p;
         txid := txid s; accountId := accountId s |}
  | SET_TXID id =>
      {| loading := loading s; withdraw := withdraw s;
         txid := Some id; accountId := accountId s |}
  end.

(** ** Collaborators of the component

    Modelled from the spec: the asset descriptor, the derivation parameters,
    the wallet handle and the two enumerations come from other packages;
    only what the component reads of them is kept. *)

Record Asset : Type := {
  assetId : string;
  symbol : string;
  name : string;
  precision : nat;
  icon : string
}.

Record BIP44Params : Type := {
  purpose : N;
  coinType : N;
  accountNumber : N
}.

Record HDWallet : Type := { supportsMemo : bool }.

Inductive StakingAction : Type := Stake | Unstake | Claim.

Inductive DefiStep : Type := Info | Status.

Record ChainSpecific : Type := { gas : string; fee : string }.

(** The argument handed to [handleStakingAction]. *)
Record StakingActionInput : Type := {
  input_asset : Asset;
  input_bip44Params : BIP44Params;
  validator : string;
  chainSpecific : ChainSpecific;
  value : string;
  action : StakingAction
}.

Record Error : Type := { message : string }.

(** ** Effects of an asynchronous callback

    A run of the callback is the sequence of things it did to the outside
    world, in order, together with how it ended. *)

Inductive Event : Type :=
| Dispatched (a : OsmosisStakingWithdrawAction)
| StakingActionCalled (input : StakingActionInput)
| Logged (error : Error) (fn : string) (msg : string)
| Advanced (step : DefiStep).

Inductive Completion (A : Type) : Type :=
| Returned (a : A)
| Thrown (e : Error).
Arguments Returned {A} a.
Arguments Thrown {A} e.

Definition Eff (A : Type) : Type := (list Event * Completion A)%type.

Definition ret {A : Type} (a : A) : Eff A := ([], Returned a).

Definition throw {A : Type} (e : Error) : Eff A := ([], Thrown e).

Definition emit (ev : Event) : Eff unit := ([ev], Returned tt).

Definition bind {A B : Type} (m : Eff A) (k : A -> Eff B) : Eff B :=
  match m with
  | (t, Returned a) => let '(t', r) := k a in ((t ++ t')%list, r)
  | (t, Thrown e) => (t, Thrown e)
  end.

Declare Scope eff_scope.
Delimit Scope eff_scope with eff.
Notation "x <- m ;; k" := (bind m (fun x => k))
  (at level 61, m at next level, right associativity) : eff_scope.
Notation "m ;; k" := (bind m (fun _ => k))
  (at level 61, right associativity) : eff_scope.

(** [try { body } catch (error) { handler } finally { finalizer }]: the
    finalizer runs on every path; an exception leaves the statement only when
    the handler (or the finalizer) throws one. *)
Definition try_catch_finally {A : Type}
    (body : Eff A) (handler : Error -> Eff A) (finalizer : Eff unit) : Eff A :=
  let '(t1, r1) := body in
  let '(t2, r2) :=
    match r1 with
    | Returned a => ([], Returned a)
    | Thrown e => handler e
    end in
  let '(t3, r3) := finalizer in
  ((t1 ++ t2 ++ t3)%list,
   match r3 with
   | Returned _ => r2
   | Thrown e => Thrown e
   end).

Definition trace {A : Type} (m : Eff A) : list Event := fst m.
Definition completion {A : Type} (m : Eff A) : Completion A := snd m.

(** The store after a run: every dispatched action goes through the reducer,
    in order. *)
Definition apply_event (s : State) (ev : Event) : State :=
  match ev with
  | Dispatched a => reducer s a
  | _ => s
  end.

Definition run_events (s : State) (t : list Event) : State :=
  fold_left apply_event t s.

(** ** [handleConfirm] *)

(** Truthiness of the values the guard tests. *)
Definition truthy_string (s : option string) : bool :=
  match s with
  | Some (String _ _) => true
  | _ => false
  end.

Definition truthy {A : Type} (o : option A) : bool :=
  match o with Some _ => true | None => false end.

Inductive Dispatch : Type := ContextDispatch.

(** What the callback closes over (its dependency list), with
    [handleStakingAction] as the outcome the signing and broadcast
    collaborator produces for a given request. *)
Record Scope : Type := {
  asset : Asset;
  bip44Params : option BIP44Params;
  contractAddress : string;
  dispatch : option Dispatch;
  gasLimit : option string;
  gasPrice : option string;
  handleStakingAction : StakingActionInput -> Completion (option string);
  state : option State;
  wallet : option HDWallet
}.

(** [state?.loading] and [state?.accountId] *)
Definition state_loading (c : Scope) : bool :=
  match state c with Some s => loading s | None => false end.

Definition state_accountId (c : Scope) : option string :=
  match state c with Some s => accountId s | None => None end.

(** Lines 109-113: the condition under which the callback returns at once. *)
Definition guard_rejects (c : Scope) : bool :=
  state_loading c
  || negb (truthy (bip44Params c) && truthy (dispatch c)
           && truthy_string (gasLimit c) && truthy_string (gasPrice c)
           && truthy_string (state_accountId c) && truthy (wallet c)).

(** Lines 124 and 126: [bnOrZero(x).times(bn(10).pow(precision)).toString()]. *)
Definition toBaseUnits (x : option string) (precision : nat) : string :=
  toString (times (bnOrZero (option_map Str x)) (pow (bn (Int 10)) precision)).

(** Lines 118-128: the request handed to [handleStakingAction]. *)
Definition stakingActionInput (c : Scope) (bip : BIP44Params)
    (gl : string) (gp : string) (st : State) : StakingActionInput :=
  {| input_asset := asset c;
     input_bip44Params := bip;
     validator := contractAddress c;
     chainSpecific :=
       {| gas := gl;
          fee := toBaseUnits (Some gp) (precision (asset c)) |};
     value := toBaseUnits (Some (cryptoAmount (withdraw st))) (precision (asset c));
     action := Unstake |}.

Definition await_handleStakingAction (c : Scope) (input : StakingActionInput)
  : Eff (option string) :=
  ([StakingActionCalled input], handleStakingAction c input).

Definition txStatus_payload (t : TxStatus) : WithdrawPayload :=
  {| set_cryptoAmount := None; set_estimatedGasCrypto := None;
     set_txStatus := Some t |}.

Local Open Scope eff_scope.

(** Lines 115-147. *)
Definition submit (c : Scope) (bip : BIP44Params) (gl gp : string) (st : State)
  : Eff unit :=
  try_catch_finally
    (emit (Dispatched (SET_LOADING true)) ;;
     broadcastTxId <- await_handleStakingAction c (stakingActionInput c bip gl gp st) ;;
     emit (Dispatched
             (SET_WITHDRAW
                (txStatus_payload
                   (if truthy_string broadcastTxId then success else failed)))) ;;
     match broadcastTxId with
     | Some (String a rest) => emit (Dispatched (SET_TXID (String a rest)))
     | _ => throw {| message := EmptyString |}
     end)
    (fun error => emit (Logged error "handleConfirm" "handleConfirm error"))
    (emit (Dispatched (SET_LOADING false)) ;;
     emit (Advanced Status)).

(** Lines 108-147. *)
Definition handleConfirm (c : Scope) : Eff unit :=
  if guard_rejects c then ret tt
  else
    match bip44Params c, gasLimit c, gasPrice c, state c with
    | Some bip, Some gl, Some gp, Some st => submit c bip gl gp st
    | _, _, _, _ => ret tt
    end.

Local Close Scope eff_scope.

(** The store once an invocation of the callback has run to completion. *)
Definition after_handleConfirm (c : Scope) (s : State) : State :=
  run_events s (trace (handleConfirm c)).

(** ** The component body around the callback *)

Record Query : Type := {
  chainId : string;
  query_contractAddress : string;
  assetNamespace : string;
  assetReference : string
}.


Section AssetResolution.

(** The identifier constructor of the CAIP package and the asset selector
    of the store are collaborators; the component only calls them. *)
Variable ReduxState : Type.
Variable toAssetId : string -> string -> string -> string.
Variable selectAssetById : ReduxState -> string -> option Asset.


End AssetResolution.

(** Lines 165-167. *)
Definition hasEnoughBalanceForGas
    (feeAssetBalance : option string) (st : State) (feeAsset : Asset) : bool :=
  gte (minus (bnOrZero (option_map Str feeAssetBalance))
             (div (bnOrZero (option_map Str (estimatedGasCrypto (withdraw st))))
                  (pow (bn (Int 10)) (precision feeAsset))))
      (bn (Int 0)).

(** ** Reference notions the properties are stated against *)

(** The number a possibly absent decimal string stands for, zero when it is
    absent or not a finite decimal numeral. *)
Definition decimal_or_zero (x : option string) : Q :=
  match x with
  | None => 0
  | Some s =>
      match parse s with
      | Num q => q
      | _ => 0
      end
  end.

(** Ten to the power of a precision. *)
Definition scale (p : nat) : Q := (10 # 1) ^ Z.of_nat p.

(** A finite decimal: some power of ten scales it to a whole number. *)
Definition is_decimal (q : Q) : Prop :=
  exists (n : Z) (k : nat), (q * scale k == inject_Z n)%Q.

(** Rounding to the nearest whole number, halves upwards. *)
Definition round (q : Q) : Z := Qfloor (q + (1 # 2)).

(** An optional minus sign followed by at least one digit, nothing else. *)
Definition is_integer_string (s : string) : bool :=
  match s with
  | String "-"%char rest => truthy (nonempty_digits rest)
  | _ => truthy (nonempty_digits s)
  end.

(** [txStatus == 'success'] exactly when [txId] is set and non-empty. *)
Definition status_matches_txid (s : State) : Prop :=
  txStatus (withdraw s) = Some success <-> truthy_string (txid s) = true.

Definition is_advance_to_status (ev : Event) : bool :=
  match ev with Advanced Status => true | _ => false end.

Definition is_staking_call (ev : Event) : bool :=
  match ev with StakingActionCalled _ => true | _ => false end.

Definition is_loading_reset (ev : Event) : bool :=
  match ev with Dispatched (SET_LOADING false) => true | _ => false end.

(** ** Sample data *)

Definition osmo : Asset :=
  {| assetId := "cosmos:osmosis-1/slip44:118"; symbol := "OSMO";
     name := "Osmosis"; precision := 6; icon := "osmo.png" |}.

Definition fresh_state : State :=
  {| loading := false;
     withdraw := {| cryptoAmount := "10"; estimatedGasCrypto := Some "2000000";
                    txStatus := None |};
     txid := None;
     accountId := Some "cosmos:osmosis-1:osmo1account" |}.

Definition sample_bip44Params : BIP44Params :=
  {| purpose := 44; coinType := 118; accountNumber := 0 |}.

Definition sample_scope (st : State)
    (broadcast : Completion (option string)) : Scope :=
  {| asset := osmo;
     bip44Params := Some sample_bip44Params;
     contractAddress := "osmovaloper1validator";
     dispatch := Some ContextDispatch;
     gasLimit := Some "200000";
     gasPrice := Some "0.5";
     handleStakingAction := fun _ => broadcast;
     state := Some st;
     wallet := Some {| supportsMemo := true |} |}.

Definition in_flight_state : State :=
  {| loading := true;
     withdraw := {| cryptoAmount := "10"; estimatedGasCrypto := Some "2000000";
                    txStatus := None |};
     txid := None;
     accountId := Some "cosmos:osmosis-1:osmo1account" |}.

(** A broadcast that hands back the identifier ["ABC123"]. *)
Definition accepted_scope : Scope :=
  sample_scope fresh_state (Returned (Some "ABC123")).

(** The store left by a first invocation whose broadcast returned an
    identifier, and a second invocation on it whose broadcast returns the
    empty string. *)
Definition after_first_success : State :=
  after_handleConfirm accepted_scope fresh_state.

Definition retry_scope : Scope :=
  sample_scope after_first_success (Returned (Some EmptyString)).

(** A broadcast that throws. *)
Definition rejection : Error := {| message := "request rejected" |}.

Definition thrown_scope : Scope := sample_scope fresh_state (Thrown rejection).

(** An invocation attempted while a submit is in flight. *)
Definition in_flight_scope : Scope :=
  sample_scope in_flight_state (Returned (Some "ABC123")).

(** The request built for precision 6, amount ["10"], gas price ["0.5"] and
    gas limit ["200000"]. *)
Definition sample_request : StakingActionInput :=
  stakingActionInput accepted_scope sample_bip44Params "200000" "0.5" fresh_state.

(** A store whose withdrawal amount is a tenth of a base unit. *)
Definition dust_state : State :=
  {| loading := false;
     withdraw := {| cryptoAmount := "0.0000001"; estimatedGasCrypto := Some "2000000";
                    txStatus := None |};
     txid := None;
     accountId := Some "cosmos:osmosis-1:osmo1account" |}.

Definition dust_request : StakingActionInput :=
  stakingActionInput (sample_scope dust_state (Returned (Some "ABC123")))
                     sample_bip44Params "200000" "0.5" dust_state.

Definition with_estimatedGas (st : State) (g : option string) : State :=
  {| loading := loading st;
     withdraw := {| cryptoAmount := cryptoAmount (withdraw st);
                    estimatedGasCrypto := g;
                    txStatus := txStatus (withdraw st) |};
     txid := txid st;
     accountId := accountId st |}.

Definition caip_toAssetId (chain ns ref : string) : string :=
  chain ++ "/" ++ ns ++ ":" ++ ref.

Definition osmo_only (_ : unit) (id : string) : option Asset :=
  if String.eqb id (assetId osmo) then Some osmo else None.


Definition is_error_log (ev : Event) : bool :=
  match ev with Logged _ _ _ => true | _ => false end.

Definition is_txStatus_assignment (ev : Event) : bool :=
  match ev with Dispatched (SET_WITHDRAW _) => true | _ => false end.

Definition osmosis_query : Query :=
  {| chainId := "cosmos:osmosis-1";
     query_contractAddress := "osmovaloper1validator";
     assetNamespace := "slip44";
     assetReference := "118" |}.

(** ** The component as a whole

    One render of [Confirm]: hooks are read, the assets are resolved, the
    callback is built, and either nothing or the confirmation view comes
    back, unless one of the calls made on the way throws. *)

Record MarketData : Type := { price : string }.

(** Sequencing of calls that either return or throw: the first exception
    ends the render. *)
Definition and_then {A B : Type} (m : Completion A) (k : A -> Completion B)
  : Completion B :=
  match m with
  | Returned a => k a
  | Thrown e => Thrown e
  end.

Declare Scope render_scope.
Delimit Scope render_scope with render.
Notation "x <~ m ;; k" := (and_then m (fun x => k))
  (at level 61, m at next level, right associativity) : render_scope.

(** The store selectors and helpers the component imports.  They belong to
    other modules; the component only calls them, and any of the calls may
    throw instead of returning. *)
Record Collaborators (ReduxState : Type) : Type := {
  toAssetId : string -> string -> string -> Completion string;
  selectAssetById : ReduxState -> string -> Completion (option Asset);
  selectMarketDataById : ReduxState -> string -> Completion (option MarketData);
  selectPortfolioCryptoHumanBalanceByFilter :
    ReduxState -> string -> string -> Completion (option string);
  selectBIP44ParamsByAccountId :
    ReduxState -> string -> Completion (option BIP44Params);
  walletCanEditMemo : HDWallet -> Completion bool;
  assetIdToUnbondingDays : string -> Completion string;
  translate : string -> Completion string
}.
Arguments toAssetId {ReduxState} _ _ _ _.
Arguments selectAssetById {ReduxState} _ _ _.
Arguments selectMarketDataById {ReduxState} _ _ _.
Arguments selectPortfolioCryptoHumanBalanceByFilter {ReduxState} _ _ _ _.
Arguments selectBIP44ParamsByAccountId {ReduxState} _ _ _.
Arguments walletCanEditMemo {ReduxState} _ _.
Arguments assetIdToUnbondingDays {ReduxState} _ _.
Arguments translate {ReduxState} _ _.

(** What the hooks hand to one render: the two pieces of local state, the
    context, the route query, the wallet, and the staking action.  The
    results of the hooks are the inputs of a render.  The effect of lines
    88-95 only feeds the two pieces of local state (from the fee estimate of
    [getFormFees], which lives elsewhere); a render reads whatever they hold
    at the time, and evaluates the effect's dependency list. *)
Record Hooks : Type := {
  hook_gasLimit : option string;
  hook_gasPrice : option string;
  hook_state : option State;
  hook_dispatch : option Dispatch;
  hook_query : Query;
  hook_wallet : option HDWallet;
  hook_handleStakingAction : StakingActionInput -> Completion (option string)
}.

(** The properties handed to [ReusableConfirm] and what its children show.
    The two formatted gas figures (fiat and crypto) are display strings of
    the decimal library and are not part of this record. *)
Record ConfirmView : Type := {
  onCancel : Eff unit;
  headerText : string;
  onConfirm : Eff unit;
  isDisabled : bool;
  view_loading : bool;
  loadingText : string;
  summary_icon : option string;
  summary_name : option string;
  summary_amount : string;
  summary_symbol : string;
  summary_unbondingDays : string;
  gas_symbol : string;
  memoNote : option (string * string);
  notEnoughGas : option string
}.

(** [accountId ?? ''] *)
Definition accountId_or_empty (accountId : option string) : string :=
  match accountId with Some a => a | None => EmptyString end.

(** The dependency list of lines 148-161: what the callback built in a
    render closes over, given the asset and the derivation parameters the
    render found. *)
Definition confirmScope (h : Hooks) (asset : Asset)
    (bip44Params : option BIP44Params) : Scope :=
  {| asset := asset;
     bip44Params := bip44Params;
     contractAddress := query_contractAddress (hook_query h);
     dispatch := hook_dispatch h;
     gasLimit := hook_gasLimit h;
     gasPrice := hook_gasPrice h;
     handleStakingAction := hook_handleStakingAction h;
     state := hook_state h;
     wallet := hook_wallet h |}.

(** Reading [price] off market data that is not there. *)
Definition price_of_undefined : Error :=
  {| message := "Cannot read properties of undefined (reading 'price')" |}.

(** Line 95: [feeMarketData.price] in the dependency list of the effect. *)
Definition read_price (feeMarketData : option MarketData) : Completion string :=
  match feeMarketData with
  | Some m => Returned (price m)
  | None => Thrown price_of_undefined
  end.

Local Open Scope render_scope.

(** Lines 228-236: the memo note, with its two translated texts. *)
Definition memoNote_of {ReduxState : Type} (k : Collaborators ReduxState)
    (h : Hooks) : Completion (option (string * string)) :=
  match hook_wallet h with
  | None => Returned None
  | Some w =>
      canEdit <~ walletCanEditMemo k w ;;
      if (canEdit : bool) then
        title <~ translate k "defi.memoNote.title" ;;
        body <~ translate k "defi.memoNote.body" ;;
        Returned (Some (title, body))
      else Returned None
  end.

(** The asset identifier of the route: lines 57-61, 63-67 and 72-76 all
    make this one call. *)
Definition query_assetId {ReduxState : Type} (k : Collaborators ReduxState)
    (query : Query) : Completion string :=
  toAssetId k (chainId query) (assetNamespace query) (assetReference query).

(** Lines 47-246, one render, in the order of the source: the three
    identifiers and lookups, the unbonding days and the market data (57-78),
    the two presence checks (80-81), the price read (95), the balance and the
    derivation parameters (97-106), the callback (108-161), the early exit
    (163), the gas check (165-167) and the view (169-245). *)
Definition Confirm {ReduxState : Type} (k : Collaborators ReduxState)
    (store : ReduxState) (accountId : option string) (h : Hooks)
  : Completion (option ConfirmView) :=
  underlyingAssetId <~ query_assetId k (hook_query h) ;;
  underlyingAsset <~ selectAssetById k store underlyingAssetId ;;
  withdrawAssetId <~ query_assetId k (hook_query h) ;;
  unbondingDays <~ assetIdToUnbondingDays k withdrawAssetId ;;
  asset <~ selectAssetById k store withdrawAssetId ;;
  feeAssetId <~ query_assetId k (hook_query h) ;;
  feeAsset <~ selectAssetById k store feeAssetId ;;
  feeMarketData <~ selectMarketDataById k store feeAssetId ;;
  match asset with
  | None =>
      Thrown {| message := "Asset not found for AssetId " ++ withdrawAssetId |}
  | Some asset =>
      match feeAsset with
      | None =>
          Thrown {| message := "Fee asset not found for AssetId " ++ feeAssetId |}
      | Some feeAsset =>
          feePrice <~ read_price feeMarketData ;;
          feeAssetBalance <~
            selectPortfolioCryptoHumanBalanceByFilter k store
              (assetId feeAsset) (accountId_or_empty accountId) ;;
          bip44Params <~
            selectBIP44ParamsByAccountId k store (accountId_or_empty accountId) ;;
          let callback := handleConfirm (confirmScope h asset bip44Params) in
          match hook_state h, hook_dispatch h with
          | Some st, Some _ =>
              let hasEnoughBalanceForGas :=
                hasEnoughBalanceForGas feeAssetBalance st feeAsset in
              confirmText <~ translate k "common.confirm" ;;
              memo <~ memoNote_of k h ;;
              Returned
                (Some
                   {| onCancel := emit (Advanced Info);
                      headerText := "modals.confirm.withdraw.header";
                      onConfirm := callback;
                      isDisabled := negb hasEnoughBalanceForGas;
                      view_loading := loading st;
                      loadingText := confirmText;
                      summary_icon := option_map icon underlyingAsset;
                      summary_name := option_map name underlyingAsset;
                      summary_amount := cryptoAmount (withdraw st);
                      summary_symbol :=
                        match underlyingAsset with
                        | Some a => symbol a
                        | None => EmptyString
                        end;
                      summary_unbondingDays := unbondingDays;
                      gas_symbol := symbol feeAsset;
                      memoNote := memo;
                      notEnoughGas :=
                        if hasEnoughBalanceForGas then None
                        else Some (symbol feeAsset) |})
          | _, _ => Returned None
          end
      end
  end.

Local Close Scope render_scope.

(** The same collaborators with another balance selector. *)
Definition with_balance {ReduxState : Type} (k : Collaborators ReduxState)
    (f : ReduxState -> string -> string -> Completion (option string))
  : Collaborators ReduxState :=
  {| toAssetId := toAssetId k;
     selectAssetById := selectAssetById k;
     selectMarketDataById := selectMarketDataById k;
     selectPortfolioCryptoHumanBalanceByFilter := f;
     selectBIP44ParamsByAccountId := selectBIP44ParamsByAccountId k;
     walletCanEditMemo := walletCanEditMemo k;
     assetIdToUnbondingDays := assetIdToUnbondingDays k;
     translate := translate k |}.

(** ** Further notions for the properties of the callback *)

(** The request an invocation would hand to the staking action, when all the
    values it is built from are there. *)
Definition confirm_request (c : Scope) : option StakingActionInput :=
  match bip44Params c, gasLimit c, gasPrice c, state c with
  | Some bip, Some gl, Some gp, Some st => Some (stakingActionInput c bip gl gp st)
  | _, _, _, _ => None
  end.

(** The same closure over a newer snapshot of the store. *)
Definition with_state (c : Scope) (s : State) : Scope :=
  {| asset := asset c;
     bip44Params := bip44Params c;
     contractAddress := contractAddress c;
     dispatch := dispatch c;
     gasLimit := gasLimit c;
     gasPrice := gasPrice c;
     handleStakingAction := handleStakingAction c;
     state := Some s;
     wallet := wallet c |}.

(** The store an accepted invocation leaves, by what the broadcast did. *)
Definition store_after (s : State) (outcome : Completion (option string)) : State :=
  match outcome with
  | Thrown _ =>
      {| loading := false; withdraw := withdraw s;
         txid := txid s; accountId := accountId s |}
  | Returned (Some (String a rest)) =>
      {| loading := false;
         withdraw := {| cryptoAmount := cryptoAmount (withdraw s);
                        estimatedGasCrypto := estimatedGasCrypto (withdraw s);
                        txStatus := Some success |};
         txid := Some (String a rest); accountId := accountId s |}
  | Returned _ =>
      {| loading := false;
         withdraw := {| cryptoAmount := cryptoAmount (withdraw s);
                        estimatedGasCrypto := estimatedGasCrypto (withdraw s);
                        txStatus := Some failed |};
         txid := txid s; accountId := accountId s |}
  end.

(** The errors an accepted invocation logs, by what the broadcast did. *)
Definition logged_errors (outcome : Completion (option string)) : list Error :=
  match outcome with
  | Thrown e => [e]
  | Returned (Some (String _ _)) => []
  | Returned _ => [{| message := EmptyString |}]
  end.

Definition error_of_log (ev : Event) : option Error :=
  match ev with Logged e _ _ => Some e | _ => None end.

Fixpoint errors_logged (t : list Event) : list Error :=
  match t with
  | [] => []
  | ev :: rest =>
      match error_of_log ev with
      | Some e => e :: errors_logged rest
      | None => errors_logged rest
      end
  end.

(** Sample collaborators: a store that knows OSMO only, one account with a
    balance of one OSMO; every call returns. *)
Definition sample_collaborators : Collaborators unit :=
  {| toAssetId := fun chain ns ref => Returned (caip_toAssetId chain ns ref);
     selectAssetById := fun store id => Returned (osmo_only store id);
     selectMarketDataById := fun _ _ => Returned (Some {| price := "1.25" |});
     selectPortfolioCryptoHumanBalanceByFilter :=
       fun _ asset account =>
         Returned
           (if (String.eqb asset (assetId osmo)
                && String.eqb account "cosmos:osmosis-1:osmo1account")%bool
            then Some "1.0" else None);
     selectBIP44ParamsByAccountId :=
       fun _ account =>
         Returned
           (if String.eqb account "cosmos:osmosis-1:osmo1account"
            then Some sample_bip44Params else None);
     walletCanEditMemo := fun w => Returned (supportsMemo w);
     assetIdToUnbondingDays := fun _ => Returned "14";
     translate := fun key => Returned key |}.

Definition sample_hooks (st : option State) : Hooks :=
  {| hook_gasLimit := Some "200000";
     hook_gasPrice := Some "0.5";
     hook_state := st;
     hook_dispatch := Some ContextDispatch;
     hook_query := osmosis_query;
     hook_wallet := Some {| supportsMemo := true |};
     hook_handleStakingAction := fun _ => Returned (Some "ABC123") |}.

Definition unknown_query : Query :=
  {| chainId := "cosmos:cosmoshub-4";
     query_contractAddress := "cosmosvaloper1validator";
     assetNamespace := "slip44";
     assetReference := "118" |}.

(** The hooks of a render on a route whose asset the store does not know. *)
Definition unknown_route_hooks : Hooks :=
  {| hook_gasLimit := Some "200000";
     hook_gasPrice := Some "0.5";
     hook_state := Some fresh_state;
     hook_dispatch := Some ContextDispatch;
     hook_query := unknown_query;
     hook_wallet := Some {| supportsMemo := true |};
     hook_handleStakingAction := fun _ => Returned (Some "ABC123") |}.

(** A store whose amount field is empty. *)
Definition empty_amount_state : State :=
  {| loading := false;
     withdraw := {| cryptoAmount := EmptyString; estimatedGasCrypto := Some "2000000";
                    txStatus := None |};
     txid := None;
     accountId := Some "cosmos:osmosis-1:osmo1account" |}.

(** ** How an invocation unfolds *)

(** The events of an invocation that got past the guard, by what the signing
    and broadcast collaborator did with the request. *)
Definition submit_events (input : StakingActionInput)
    (outcome : Completion (option string)) : list Event :=
  match outcome with
  | Thrown e =>
      [Dispatched (SET_LOADING true); StakingActionCalled input;
       Logged e "handleConfirm" "handleConfirm error";
       Dispatched (SET_LOADING false); Advanced Status]
  | Returned (Some (String a rest)) =>
      [Dispatched (SET_LOADING true); StakingActionCalled input;
       Dispatched (SET_WITHDRAW (txStatus_payload success));
       Dispatched (SET_TXID (String a rest));
       Dispatched (SET_LOADING false); Advanced Status]
  | Returned _ =>
      [Dispatched (SET_LOADING true); StakingActionCalled input;
       Dispatched (SET_WITHDRAW (txStatus_payload failed));
       Logged {| message := EmptyString |} "handleConfirm" "handleConfirm error";
       Dispatched (SET_LOADING false); Advanced Status]
  end.

(** [loading] holds at every point of a run that lies after its first event
    and before its exit-loading dispatch: [cur] is the store at such a point,
    [later] what is still to happen. *)
Fixpoint loading_held (cur : State) (later : list Event) : bool :=
  (if existsb is_loading_reset later then loading cur else true)
  && match later with
     | [] => true
     | ev :: later' => loading_held (apply_event cur ev) later'
     end.

Lemma submit_unfolds (c : Scope) (bip : BIP44Params) (gl gp : string) (st : State) :
  submit c bip gl gp st =
  (submit_events (stakingActionInput c bip gl gp st)
     (handleStakingAction c (stakingActionInput c bip gl gp st)),
   Returned tt).
Proof.
  unfold submit, try_catch_finally, await_handleStakingAction, bind, emit, throw.
  destruct (handleStakingAction c (stakingActionInput c bip gl gp st))
    as [[[|a rest]|]|e]; reflexivity.
Qed.

Lemma truthy_string_some (o : option string) :
  truthy_string o = true -> exists a rest, o = Some (String a rest).
Proof.
  destruct o as [[|a rest]|]; simpl; intro H; try discriminate.
  now exists a, rest.
Qed.

Lemma truthy_some {A : Type} (o : option A) :
  truthy o = true -> exists a, o = Some a.
Proof.
  destruct o as [a|]; simpl; intro H; try discriminate.
  now exists a.
Qed.

(** Past the guard every value the body reads is there, and the callback is
    the submit sequence on those values. *)
Lemma guard_accepts (c : Scope) :
  guard_rejects c = false ->
  exists bip gl gp st,
    bip44Params c = Some bip /\ gasLimit c = Some gl /\ gasPrice c = Some gp /\
    state c = Some st /\ loading st = false /\
    handleConfirm c = submit c bip gl gp st.
Proof.
  intro G. unfold handleConfirm. rewrite G.
  unfold guard_rejects in G.
  apply orb_false_elim in G. destruct G as [L G].
  apply negb_false_iff in G.
  repeat (apply andb_prop in G; destruct G as [G ?]).
  destruct (truthy_some _ G) as [bip Hb].
  destruct (truthy_string_some (gasLimit c)) as (a1 & r1 & Hgl); [assumption|].
  destruct (truthy_string_some (gasPrice c)) as (a2 & r2 & Hgp); [assumption|].
  destruct (truthy_string_some (state_accountId c)) as (a3 & r3 & Hacc); [assumption|].
  unfold state_accountId, state_loading in *.
  destruct (state c) as [st|] eqn:Hst; [|discriminate].
  exists bip, (String a1 r1), (String a2 r2), st.
  rewrite Hb, Hgl, Hgp. repeat split; auto.
Qed.

(** The same, with the run spelled out. *)
Lemma accepted_run (c : Scope) :
  guard_rejects c = false ->
  exists input,
    handleConfirm c = (submit_events input (handleStakingAction c input), Returned tt).
Proof.
  intro G. destruct (guard_accepts c G) as (bip & gl & gp & st & _ & _ & _ & _ & _ & E).
  exists (stakingActionInput c bip gl gp st). rewrite E. apply submit_unfolds.
Qed.

Lemma rejected_run (c : Scope) :
  guard_rejects c = true -> handleConfirm c = ([], Returned tt).
Proof.
  intro G. unfold handleConfirm. now rewrite G.
Qed.

Lemma after_rejected (c : Scope) (s : State) :
  guard_rejects c = true -> after_handleConfirm c s = s.
Proof.
  intro G. unfold after_handleConfirm. now rewrite (rejected_run c G).
Qed.

Lemma after_accepted (c : Scope) (s : State) :
  guard_rejects c = false ->
  exists input,
    trace (handleConfirm c) = submit_events input (handleStakingAction c input) /\
    after_handleConfirm c s =
    run_events s (submit_events input (handleStakingAction c input)).
Proof.
  intro G. destruct (accepted_run c G) as [input E].
  exists input. unfold after_handleConfirm. now rewrite E.
Qed.

(** A thrown broadcast touches nothing but [loading]. *)
Lemma thrown_run_keeps_withdraw (s : State) (input : StakingActionInput) (e : Error) :
  withdraw (run_events s (submit_events input (Thrown e))) = withdraw s /\
  txid (run_events s (submit_events input (Thrown e))) = txid s.
Proof. split; reflexivity. Qed.

Lemma loading_held_sound (later before : list Event) (cur : State) :
  loading_held cur (before ++ later) = true ->
  existsb is_loading_reset later = true ->
  loading (run_events cur before) = true.
Proof.
  revert cur. induction before as [|ev before IH]; intros cur H R.
  - simpl in *. destruct later; simpl in *.
    + discriminate.
    + rewrite R in H. now apply andb_prop in H.
  - simpl in H. apply andb_prop in H. destruct H as [_ H].
    simpl. now apply IH.
Qed.

Lemma submit_events_hold_loading (s : State) (input : StakingActionInput)
    (outcome : Completion (option string)) :
  match submit_events input outcome with
  | [] => False
  | ev :: later => loading_held (apply_event s ev) later = true
  end.
Proof.
  destruct outcome as [[[|a rest]|]|e]; reflexivity.
Qed.

(** ** The arithmetic behind the amounts *)

Lemma bnOrZero_decimal (x : option string) :
  bnOrZero (option_map Str x) = Num (decimal_or_zero x).
Proof.
  destruct x as [[|a rest]|]; try reflexivity.
  unfold bnOrZero, decimal_or_zero. simpl usable. simpl bn.
  destruct (parse (String a rest)); reflexivity.
Qed.

Lemma pow_ten (p : nat) : pow (bn (Int 10)) p = Num (scale p).
Proof. reflexivity. Qed.

Lemma scale_positive (p : nat) : (0 < scale p)%Q.
Proof. unfold scale. apply Qpower_0_lt. reflexivity. Qed.

Lemma positive_not_zero (q : Q) : (0 < q)%Q -> isZeroQ q = false.
Proof.
  destruct q as [n d]. unfold Qlt, isZeroQ. simpl. intro H.
  apply Z.eqb_neq. lia.
Qed.

(** The conversion is the rendering of the exact product. *)
Lemma toBaseUnits_exact (x : option string) (p : nat) :
  toBaseUnits x p = toString (Num (decimal_or_zero x * scale p)).
Proof.
  unfold toBaseUnits. now rewrite bnOrZero_decimal, pow_ten.
Qed.

Lemma toString_equal_values (q q' : Q) :
  (q == q')%Q -> toString (Num q) = toString (Num q').
Proof.
  intro E. unfold toString. now rewrite (Qred_complete q q' E).
Qed.

Lemma toString_whole (n : Z) : toString (Num (inject_Z n)) = string_of_Z n.
Proof.
  unfold toString.
  assert (R : Qred (inject_Z n) = inject_Z n).
  { apply Qred_identity. simpl. apply Z.gcd_1_r. }
  rewrite R. simpl Qden. simpl Qnum.
  rewrite N.mod_1_r, N.div_1_r. simpl fraction_digits.
  unfold isNegativeQ. simpl Qnum.
  destruct n as [|p|p]; reflexivity.
Qed.

Lemma toString_of_whole_value (q : Q) (n : Z) :
  (q == inject_Z n)%Q -> toString (Num q) = string_of_Z n.
Proof.
  intro E. rewrite (toString_equal_values _ _ E). apply toString_whole.
Qed.

Lemma round_whole (q : Q) (n : Z) : (q == inject_Z n)%Q -> round q = n.
Proof.
  intro E. unfold round.
  assert (Lo : (inject_Z (Qfloor (q + (1 # 2))) <= q + (1 # 2))%Q) by apply Qfloor_le.
  assert (Hi : (q + (1 # 2) < inject_Z (Qfloor (q + (1 # 2)) + 1))%Q) by apply Qlt_floor.
  set (m := Qfloor (q + (1 # 2))) in *.
  rewrite inject_Z_plus in Hi. change (inject_Z 1) with 1%Q in Hi.
  assert (A : (inject_Z m < inject_Z (n + 1))%Q).
  { rewrite inject_Z_plus. change (inject_Z 1) with 1%Q. lra. }
  assert (B : (inject_Z (n - 1) < inject_Z m)%Q).
  { replace (n - 1)%Z with (n + Zneg 1)%Z by lia.
    rewrite inject_Z_plus. change (inject_Z (Zneg 1)) with (-1 # 1)%Q. lra. }
  rewrite <- Zlt_Qlt in A, B. lia.
Qed.

(** The balance check is the sign of balance minus gas in fee-asset units. *)
Lemma hasEnoughBalanceForGas_value (b : option string) (st : State) (a : Asset) :
  hasEnoughBalanceForGas b st a =
  Qle_bool 0 (decimal_or_zero b
              - decimal_or_zero (estimatedGasCrypto (withdraw st)) / scale (precision a)).
Proof.
  unfold hasEnoughBalanceForGas.
  rewrite !bnOrZero_decimal, pow_ten.
  unfold div. rewrite (positive_not_zero _ (scale_positive (precision a))).
  reflexivity.
Qed.

(** ** Integer numerals read back as the number they render *)

Lemma digit_roundtrip (d : N) :
  (d < 10)%N -> digit_of_ascii (ascii_of_digit d) = Some d.
Proof.
  intro H.
  assert (C : (d = 0 \/ d = 1 \/ d = 2 \/ d = 3 \/ d = 4 \/ d = 5 \/ d = 6
               \/ d = 7 \/ d = 8 \/ d = 9)%N) by lia.
  repeat (destruct C as [->|C]; [reflexivity|]). now subst.
Qed.

Lemma digits_value_app (s1 s2 : string) (a : N) :
  digits_value (s1 ++ s2) a =
  match digits_value s1 a with
  | Some v => digits_value s2 v
  | None => None
  end.
Proof.
  revert a. induction s1 as [|c s1 IH]; intro a; simpl; [reflexivity|].
  destruct (digit_of_ascii c); [apply IH|reflexivity].
Qed.

Lemma append_empty_r (s : string) : s ++ EmptyString = s.
Proof. induction s as [|c s IH]; simpl; [reflexivity|now rewrite IH]. Qed.

Lemma append_assoc (s1 s2 s3 : string) : (s1 ++ s2) ++ s3 = s1 ++ (s2 ++ s3).
Proof. induction s1 as [|c s1 IH]; simpl; [reflexivity|now rewrite IH]. Qed.

(** With enough fuel the digits put in front of [acc] are a non-empty
    numeral of [n] that starts with a digit. *)
Lemma digits_of_numeral (fuel : nat) :
  forall (n : N) (acc : string),
    (n < 2 ^ N.of_nat fuel)%N -> fuel <> O ->
    exists d rest,
      (d < 10)%N /\
      digits_of fuel n acc = String (ascii_of_digit d) rest ++ acc /\
      digits_value (String (ascii_of_digit d) rest) 0 = Some n.
Proof.
  induction fuel as [|fuel IH]; intros n acc Bound NZ; [contradiction|].
  simpl digits_of.
  assert (D : (n mod 10 < 10)%N) by (apply N.mod_lt; lia).
  destruct (n / 10 =? 0)%N eqn:Q.
  - apply N.eqb_eq in Q. exists (n mod 10)%N, EmptyString. split; [exact D|]. split; [reflexivity|].
    simpl. rewrite (digit_roundtrip _ D). f_equal.
    pose proof (N.div_mod n 10). lia.
  - apply N.eqb_neq in Q.
    assert (F : fuel <> O).
    { intro Z. subst fuel. simpl in Bound.
      assert (n / 10 = 0)%N by (apply N.div_small; lia). contradiction. }
    assert (B : (n / 10 < 2 ^ N.of_nat fuel)%N).
    { rewrite Nat2N.inj_succ, N.pow_succ_r' in Bound.
      apply N.Div0.div_lt_upper_bound; lia. }
    destruct (IH (n / 10)%N (String (ascii_of_digit (n mod 10)) acc) B F)
      as (d & rest & Hd & E & V).
    exists d, (rest ++ String (ascii_of_digit (n mod 10)) EmptyString).
    split; [exact Hd|]. split.
    + rewrite E. simpl. f_equal. now rewrite append_assoc.
    + change (String (ascii_of_digit d) (rest ++ String (ascii_of_digit (n mod 10)) EmptyString))
        with (String (ascii_of_digit d) rest ++ String (ascii_of_digit (n mod 10)) EmptyString).
      rewrite digits_value_app, V. simpl. rewrite (digit_roundtrip _ D). f_equal.
      pose proof (N.div_mod n 10). lia.
Qed.

Lemma string_of_N_numeral (n : N) :
  exists d rest,
    (d < 10)%N /\
    string_of_N n = String (ascii_of_digit d) rest /\
    digits_value (string_of_N n) 0 = Some n.
Proof.
  unfold string_of_N.
  destruct (digits_of_numeral (S (N.to_nat (N.log2 n))) n EmptyString) as (d & rest & Hd & E & V).
  - rewrite Nat2N.inj_succ, N2Nat.id.
    destruct n as [|p]; [reflexivity|]. apply N.log2_spec. lia.
  - discriminate.
  - exists d, rest. rewrite E, append_empty_r. auto.
Qed.

(** A string of digits has no decimal point and no exponent mark. *)
Lemma split_at_digits (p : ascii -> bool) (s : string) (a v : N) :
  (forall c, p c = true -> digit_of_ascii c = None) ->
  digits_value s a = Some v ->
  split_at p s = (s, None).
Proof.
  intro P. revert a. induction s as [|c s IH]; intros a H; simpl in *; [reflexivity|].
  destruct (digit_of_ascii c) as [d|] eqn:Dc; [|discriminate].
  destruct (p c) eqn:Pc.
  - rewrite (P c Pc) in Dc. discriminate.
  - now rewrite (IH _ H).
Qed.

Lemma no_digit_is_dot (c : ascii) : is_dot c = true -> digit_of_ascii c = None.
Proof.
  unfold is_dot. intro H. apply Ascii.eqb_eq in H. now subst.
Qed.

Lemma no_digit_is_exp_mark (c : ascii) :
  is_exp_mark c = true -> digit_of_ascii c = None.
Proof.
  unfold is_exp_mark. intro H. apply orb_prop in H.
  destruct H as [H|H]; apply Ascii.eqb_eq in H; now subst.
Qed.

Lemma parse_unsigned_numeral (n : N) :
  parse_unsigned (string_of_N n) = Some (inject_Z (Z.of_N n) * 1)%Q.
Proof.
  destruct (string_of_N_numeral n) as (d & rest & Hd & E & V).
  unfold parse_unsigned.
  rewrite (split_at_digits _ _ _ _ no_digit_is_exp_mark V).
  rewrite (split_at_digits _ _ _ _ no_digit_is_dot V).
  rewrite append_empty_r, V. rewrite E. reflexivity.
Qed.

Lemma parse_numeral (n : N) :
  parse (string_of_N n) = Num (inject_Z (Z.of_N n) * 1).
Proof.
  unfold parse. rewrite parse_unsigned_numeral.
  destruct (string_of_N_numeral n) as (d & rest & Hd & E & _). rewrite E.
  assert (C : (d = 0 \/ d = 1 \/ d = 2 \/ d = 3 \/ d = 4 \/ d = 5 \/ d = 6
               \/ d = 7 \/ d = 8 \/ d = 9)%N) by lia.
  repeat (destruct C as [->|C]; [reflexivity|]). now subst.
Qed.

Lemma parse_negative_numeral (p : positive) :
  parse ("-" ++ string_of_N (Npos p)) = Num (- (inject_Z (Zpos p) * 1)).
Proof.
  unfold parse. simpl append.
  destruct (string_of_N_numeral (Npos p)) as (d & rest & Hd & E & _).
  pose proof (parse_unsigned_numeral (Npos p)) as U. rewrite E in *.
  assert (C : (d = 0 \/ d = 1 \/ d = 2 \/ d = 3 \/ d = 4 \/ d = 5 \/ d = 6
               \/ d = 7 \/ d = 8 \/ d = 9)%N) by lia.
  repeat (destruct C as [->|C]; [simpl; rewrite U; reflexivity|]).
  subst. simpl. rewrite U. reflexivity.
Qed.

(** The integer string of [n] denotes [n]. *)
Lemma decimal_of_integer_string (n : Z) :
  (decimal_or_zero (Some (string_of_Z n)) == inject_Z n)%Q.
Proof.
  unfold decimal_or_zero. destruct n as [|p|p]; unfold string_of_Z.
  - reflexivity.
  - rewrite parse_numeral. simpl Z.of_N. ring.
  - rewrite parse_negative_numeral.
    change (inject_Z (Z.neg p)) with (- inject_Z (Z.pos p))%Q. ring.
Qed.

Lemma string_of_Z_is_integer_string (n : Z) :
  is_integer_string (string_of_Z n) = true.
Proof.
  assert (P : forall m, is_integer_string (string_of_N m) = true).
  { intro m. destruct (string_of_N_numeral m) as (d & rest & Hd & E & V).
    unfold is_integer_string, nonempty_digits. rewrite E in *. rewrite V.
    assert (C : (d = 0 \/ d = 1 \/ d = 2 \/ d = 3 \/ d = 4 \/ d = 5 \/ d = 6
                 \/ d = 7 \/ d = 8 \/ d = 9)%N) by lia.
    repeat (destruct C as [->|C]; [reflexivity|]). now subst. }
  destruct n as [|p|p]; unfold string_of_Z; [reflexivity|apply P|].
  destruct (string_of_N_numeral (Npos p)) as (d & rest & Hd & E & V).
  unfold is_integer_string, nonempty_digits. simpl append. rewrite E in *.
  now rewrite V.
Qed.

(** What the rendering of a whole value is: the integer string of that
    value, which reads back as the value. *)
Lemma whole_value_rendering (q : Q) (n : Z) :
  (q == inject_Z n)%Q ->
  toString (Num q) = string_of_Z n /\
  is_integer_string (toString (Num q)) = true /\
  (decimal_or_zero (Some (toString (Num q))) == q)%Q.
Proof.
  intro E. rewrite (toString_of_whole_value q n E).
  split; [reflexivity|]. split; [apply string_of_Z_is_integer_string|].
  rewrite decimal_of_integer_string. now symmetry.
Qed.

(** ** Every finite decimal reads back from its rendering *)

Lemma five_divides_or_coprime (d : Z) :
  (5 | d)%Z \/ Z.gcd d 5 = 1%Z.
Proof.
  pose proof (Z.gcd_divide_r d 5) as G5.
  pose proof (Z.gcd_divide_l d 5) as Gd.
  pose proof (Z.gcd_nonneg d 5) as Pos.
  set (g := Z.gcd d 5) in *.
  assert (Le : (g <= 5)%Z) by (apply Z.divide_pos_le; [lia|exact G5]).
  assert (C : (g = 0 \/ g = 1 \/ g = 2 \/ g = 3 \/ g = 4 \/ g = 5)%Z) by lia.
  destruct C as [E|[E|[E|[E|[E|E]]]]]; rewrite E in *.
  - destruct G5 as [x Hx]. lia.
  - now right.
  - destruct G5 as [x Hx]. lia.
  - destruct G5 as [x Hx]. lia.
  - destruct G5 as [x Hx]. lia.
  - now left.
Qed.

Lemma odd_coprime_to_power_of_two (p : positive) (k : nat) :
  Z.gcd (Zpos p~1) (2 ^ Z.of_nat k) = 1%Z.
Proof.
  apply Z.coprime_pow_r; [lia|]. symmetry.
  apply Z.coprime_prime_l; [exact Z.prime_2|].
  intros [x Hx]. lia.
Qed.

Lemma divides_power_of_ten_within_size (m : nat) :
  forall d : positive,
    (Pos.size_nat d <= m)%nat ->
    (exists k : nat, (Zpos d | 10 ^ Z.of_nat k)%Z) ->
    (Zpos d | 10 ^ Z.of_nat m)%Z.
Proof.
  induction m as [|m IH]; intros d Size [k Hk].
  - destruct d; simpl in Size; lia.
  - rewrite Nat2Z.inj_succ, Z.pow_succ_r by lia.
    destruct d as [p|p|].
    + (* odd and above one: a multiple of five *)
      assert (H5 : (Zpos p~1 | 5 ^ Z.of_nat k)%Z).
      { apply (Z.gauss _ (2 ^ Z.of_nat k)).
        - rewrite <- Z.pow_mul_l. exact Hk.
        - apply odd_coprime_to_power_of_two. }
      destruct (five_divides_or_coprime (Zpos p~1)) as [[x Hx]|Co].
      * assert (Px : (0 < x)%Z) by lia.
        destruct x as [|x|x]; try lia.
        assert (Sx : (Pos.size_nat x <= m)%nat).
        { assert (L : (x~0 < p~1)%positive) by lia.
          apply Pos.size_nat_monotone in L. simpl in L, Size. lia. }
        assert (Dx : (Zpos x | 10 ^ Z.of_nat m)%Z).
        { apply IH; [exact Sx|]. exists k.
          apply Z.divide_trans with (Zpos p~1); [|exact Hk].
          exists 5%Z. lia. }
        destruct Dx as [y Hy]. exists (2 * y)%Z. rewrite Hx, Hy. ring.
      * exfalso.
        assert (R : Z.gcd (Zpos p~1) (5 ^ Z.of_nat k) = 1%Z)
          by (apply Z.coprime_pow_r; [lia|exact Co]).
        assert (One : (Zpos p~1 | 1)%Z).
        { rewrite <- R. apply Z.gcd_greatest; [apply Z.divide_refl|exact H5]. }
        apply Z.divide_1_r_nonneg in One; lia.
    + simpl in Size.
      assert (Dp : (Zpos p | 10 ^ Z.of_nat m)%Z).
      { apply IH; [lia|]. exists k.
        apply Z.divide_trans with (Zpos p~0); [|exact Hk]. exists 2%Z. lia. }
      destruct Dp as [y Hy]. exists (5 * y)%Z. rewrite Hy. lia.
    + apply Z.divide_1_l.
Qed.

Lemma scale_integer (k : nat) : (scale k == inject_Z (10 ^ Z.of_nat k))%Q.
Proof.
  unfold scale. symmetry. apply (Zpower_Qpower 10). lia.
Qed.

(** The reduced denominator of a finite decimal divides ten to the number of
    its binary digits. *)
Lemma decimal_denominator (q : Q) :
  is_decimal q ->
  (Zpos (Qden (Qred q)) | 10 ^ Z.of_nat (Pos.size_nat (Qden (Qred q))))%Z.
Proof.
  intros (n & k & E).
  apply divides_power_of_ten_within_size; [lia|]. exists k.
  rewrite <- (Qred_correct q), scale_integer in E.
  pose proof (gcd_Qred q) as G.
  destruct (Qred q) as [a d]. simpl in *.
  unfold Qeq in E. simpl in E.
  apply (Z.gauss _ a).
  - exists n. lia.
  - rewrite Z.gcd_comm. exact G.
Qed.

Lemma digits_value_acc (s : string) :
  forall acc : N,
    digits_value s acc =
    match digits_value s 0 with
    | Some v => Some (acc * 10 ^ N.of_nat (String.length s) + v)%N
    | None => None
    end.
Proof.
  induction s as [|c s IH]; intro acc.
  - simpl. f_equal. lia.
  - cbn [digits_value String.length].
    rewrite Nat2N.inj_succ, N.pow_succ_r'.
    destruct (digit_of_ascii c) as [d|]; [|reflexivity].
    rewrite (IH (acc * 10 + d)%N), (IH (0 * 10 + d)%N).
    destruct (digits_value s 0) as [v|]; [|reflexivity].
    f_equal. ring.
Qed.

Lemma fraction_digits_exact (fuel : nat) :
  forall r d : N,
    (0 < d)%N -> (r < d)%N -> (d | r * 10 ^ N.of_nat fuel)%N ->
    exists v,
      digits_value (fraction_digits fuel r d) 0 = Some v /\
      (v * d = r * 10 ^ N.of_nat (String.length (fraction_digits fuel r d)))%N.
Proof.
  induction fuel as [|fuel IH]; intros r d Pd Lt Div.
  - exists 0%N. cbn [fraction_digits digits_value String.length].
    split; [reflexivity|].
    assert (Z : r = 0%N).
    { destruct (N.eq_dec r 0) as [|NZ]; [assumption|].
      change (10 ^ N.of_nat 0)%N with 1%N in Div. rewrite N.mul_1_r in Div.
      apply N.divide_pos_le in Div; lia. }
    subst r. reflexivity.
  - simpl fraction_digits. destruct (r =? 0)%N eqn:Z.
    + apply N.eqb_eq in Z. subst r. exists 0%N. simpl. split; [reflexivity|lia].
    + apply N.eqb_neq in Z.
      pose proof (N.div_mod (r * 10) d) as DM.
      assert (Rm : (r * 10 mod d < d)%N) by (apply N.mod_lt; lia).
      assert (Q0 : (r * 10 / d < 10)%N) by (apply N.Div0.div_lt_upper_bound; lia).
      assert (Div' : (d | (r * 10 mod d) * 10 ^ N.of_nat fuel)%N).
      { apply (N.divide_add_cancel_r _ (d * (r * 10 / d) * 10 ^ N.of_nat fuel)).
        - exists ((r * 10 / d) * 10 ^ N.of_nat fuel)%N. ring.
        - rewrite <- N.mul_add_distr_r, <- DM by lia.
          rewrite Nat2N.inj_succ, N.pow_succ_r' in Div.
          now rewrite <- N.mul_assoc. }
      destruct (IH _ _ Pd Rm Div') as (v' & V & E).
      set (s' := fraction_digits fuel (r * 10 mod d) d) in *.
      exists ((r * 10 / d) * 10 ^ N.of_nat (String.length s') + v')%N.
      split.
      * simpl. rewrite (digit_roundtrip _ Q0), digits_value_acc, V.
        f_equal.
      * cbn [String.length]. rewrite Nat2N.inj_succ, N.pow_succ_r'.
        rewrite N.mul_add_distr_r, E.
        transitivity ((d * (r * 10 / d) + r * 10 mod d)
                      * 10 ^ N.of_nat (String.length s'))%N; [ring|].
        rewrite <- DM by lia. ring.
Qed.

Lemma split_at_app (p : ascii -> bool) (s1 s2 : string) :
  split_at p s1 = (s1, None) ->
  split_at p (s1 ++ s2) = (let '(a, b) := split_at p s2 in (s1 ++ a, b)).
Proof.
  induction s1 as [|c s1 IH]; intro H.
  - simpl. now destruct (split_at p s2).
  - simpl in *. destruct (p c); [discriminate|].
    destruct (split_at p s1) as [a b] eqn:E. injection H as -> ->.
    rewrite (IH eq_refl). now destruct (split_at p s2).
Qed.

(** Reading digits, a point, and more digits. *)
Lemma parse_unsigned_point (sw sf : string) (w v : N) :
  digits_value sw 0 = Some w -> sw <> EmptyString ->
  digits_value sf 0 = Some v ->
  parse_unsigned (sw ++ "." ++ sf)
  = Some (inject_Z (Z.of_N (w * 10 ^ N.of_nat (String.length sf) + v))
          * (10 # 1) ^ (0 - Z.of_nat (String.length sf)))%Q.
Proof.
  intros W NE V. unfold parse_unsigned.
  change ("." ++ sf) with (String "."%char sf).
  rewrite (split_at_app is_exp_mark sw _
             (split_at_digits _ _ _ _ no_digit_is_exp_mark W)).
  cbn [split_at]. change (is_exp_mark "."%char) with false. cbv iota.
  rewrite (split_at_digits _ _ _ _ no_digit_is_exp_mark V).
  rewrite (split_at_app is_dot sw _ (split_at_digits _ _ _ _ no_digit_is_dot W)).
  cbn [split_at]. change (is_dot "."%char) with true. cbv iota.
  rewrite append_empty_r.
  destruct sw as [|c sw']; [contradiction|].
  cbn [String.eqb andb].
  rewrite digits_value_app, W, digits_value_acc, V.
  reflexivity.
Qed.

Lemma parse_after_digit (d : N) (rest : string) (q : Q) :
  (d < 10)%N ->
  parse_unsigned (String (ascii_of_digit d) rest) = Some q ->
  parse (String (ascii_of_digit d) rest) = Num q /\
  parse (String "-"%char (String (ascii_of_digit d) rest)) = Num (- q).
Proof.
  intros Hd U. unfold parse.
  assert (C : (d = 0 \/ d = 1 \/ d = 2 \/ d = 3 \/ d = 4 \/ d = 5 \/ d = 6
               \/ d = 7 \/ d = 8 \/ d = 9)%N) by lia.
  repeat (destruct C as [->|C]; [simpl; rewrite U; split; reflexivity|]).
  subst. simpl. rewrite U. split; reflexivity.
Qed.

Lemma divide_to_N (d : positive) (m : N) :
  (Zpos d | Z.of_N m)%Z -> (Npos d | m)%N.
Proof.
  intros [x Hx]. exists (Z.to_N x).
  assert (0 <= x)%Z by nia.
  apply N2Z.inj. rewrite N2Z.inj_mul, Z2N.id by assumption. exact Hx.
Qed.

Lemma point_value (W a : Z) (len : nat) (d : positive) :
  (W * Zpos d = a * 10 ^ Z.of_nat len)%Z ->
  (inject_Z W * (10 # 1) ^ (0 - Z.of_nat len) == a # d)%Q.
Proof.
  intro E.
  replace (0 - Z.of_nat len)%Z with (- Z.of_nat len)%Z by lia.
  rewrite Qpower_opp.
  change (10 # 1) with (inject_Z 10).
  rewrite <- Zpower_Qpower by lia.
  assert (P : (0 < 10 ^ Z.of_nat len)%Z) by (apply Z.pow_pos_nonneg; lia).
  destruct (10 ^ Z.of_nat len)%Z as [|t|t]; try lia.
  unfold Qeq, Qmult, Qinv, inject_Z. simpl. lia.
Qed.

Lemma toString_reads_back (q : Q) :
  is_decimal q -> (decimal_or_zero (Some (toString (Num q))) == q)%Q.
Proof.
  intro Dq.
  pose proof (decimal_denominator q Dq) as Div.
  pose proof (Qred_correct q) as Rq.
  unfold toString. destruct (Qred q) as [a d]. simpl Qden in *. simpl Qnum in *.
  set (fuel := Pos.size_nat d) in *.
  set (A := Z.abs_N a). set (D := Npos d).
  pose proof (N.div_mod A D) as DM.
  assert (Rm : (A mod D < D)%N) by (apply N.mod_lt; discriminate).
  assert (DivN : (D | (A mod D) * 10 ^ N.of_nat fuel)%N).
  { apply N.divide_mul_r. apply divide_to_N.
    rewrite N2Z.inj_pow, nat_N_Z. exact Div. }
  destruct (fraction_digits_exact fuel (A mod D) D) as (v & V & E);
    [reflexivity|exact Rm|exact DivN|].
  assert (Abs : Z.of_N A = Z.abs a) by apply N2Z.inj_abs_N.
  unfold isNegativeQ. simpl Qnum.
  destruct (fraction_digits fuel (A mod D) D) as [|c0 pl] eqn:Places.
  - (* a whole number *)
    cbn [digits_value String.length] in V, E. injection V as <-.
    change (10 ^ N.of_nat 0)%N with 1%N in E.
    assert (R0 : (A mod D = 0)%N) by lia.
    rewrite decimal_of_integer_string, <- Rq.
    unfold Qeq. simpl.
    assert (Z.of_N A = Z.of_N (A / D) * Zpos d)%Z.
    { rewrite DM at 1 by discriminate. rewrite R0. unfold D. lia. }
    destruct (a <? 0)%Z eqn:Neg;
      [apply Z.ltb_lt in Neg|apply Z.ltb_ge in Neg]; lia.
  - (* digits after the point *)
    destruct (string_of_N_numeral (A / D)) as (d0 & rest0 & Hd0 & Sw & Vw).
    assert (U := parse_unsigned_point (string_of_N (A / D)) (String c0 pl)
                   (A / D) v Vw).
    rewrite Sw in U. specialize (U ltac:(discriminate) V).
    change (String (ascii_of_digit d0) rest0 ++ "." ++ String c0 pl)
      with (String (ascii_of_digit d0) (rest0 ++ "." ++ String c0 pl)) in U.
    destruct (parse_after_digit d0 _ _ Hd0 U) as (Pp & Pn).
    assert (Val : (inject_Z (Z.of_N (A / D * 10 ^ N.of_nat (String.length (String c0 pl)) + v))
                   * (10 # 1) ^ (0 - Z.of_nat (String.length (String c0 pl)))
                   == Z.abs a # d)%Q).
    { apply point_value.
      rewrite N2Z.inj_add, N2Z.inj_mul, N2Z.inj_pow, nat_N_Z.
      rewrite <- Abs.
      set (T := (10 ^ Z.of_nat (String.length (String c0 pl)))%Z).
      assert (E' : (Z.of_N v * Zpos d = Z.of_N (A mod D) * T)%Z).
      { pose proof (f_equal Z.of_N E) as EZ.
        rewrite !N2Z.inj_mul, N2Z.inj_pow, nat_N_Z in EZ. exact EZ. }
      assert (DM' : (Z.of_N A = Zpos d * Z.of_N (A / D) + Z.of_N (A mod D))%Z).
      { rewrite DM at 1 by discriminate. unfold D. lia. }
      rewrite DM'. change (Z.of_N 10) with 10%Z. fold T.
      rewrite Z.mul_add_distr_r, E'. ring. }
    rewrite Sw. unfold decimal_or_zero.
    destruct (a <? 0)%Z eqn:Neg;
      [apply Z.ltb_lt in Neg|apply Z.ltb_ge in Neg].
    + change ("-" ++ String (ascii_of_digit d0) rest0 ++ "." ++ String c0 pl)
        with (String "-"%char
                (String (ascii_of_digit d0) (rest0 ++ "." ++ String c0 pl))).
      rewrite Pn, Val, <- Rq.
      unfold Qeq, Qopp. simpl. lia.
    + change (EmptyString ++ String (ascii_of_digit d0) rest0 ++ "." ++ String c0 pl)
        with (String (ascii_of_digit d0) (rest0 ++ "." ++ String c0 pl)).
      rewrite Pp, Val, <- Rq.
      unfold Qeq. simpl. lia.
Qed.

Lemma decimal_zero : is_decimal 0.
Proof. exists 0%Z, O. reflexivity. Qed.

Lemma decimal_opp (q : Q) : is_decimal q -> is_decimal (- q).
Proof.
  intros (n & k & E). exists (- n)%Z, k.
  rewrite inject_Z_opp, <- E. ring.
Qed.

Lemma decimal_scaled (q : Q) (p : nat) : is_decimal q -> is_decimal (q * scale p).
Proof.
  intros (n & k & E). exists (n * 10 ^ Z.of_nat p)%Z, k.
  rewrite inject_Z_mult, <- E, <- scale_integer. ring.
Qed.

Lemma decimal_power_of_ten (c z : Z) : is_decimal (inject_Z c * (10 # 1) ^ z).
Proof.
  destruct (Z_le_gt_dec 0 z) as [Pos|Neg].
  - exists (c * 10 ^ z)%Z, O.
    rewrite inject_Z_mult, (Zpower_Qpower 10 z Pos).
    change (inject_Z 10) with (10 # 1)%Q. change (scale 0) with 1%Q. ring.
  - exists c, (Z.to_nat (- z)).
    unfold scale. rewrite Z2Nat.id by lia.
    rewrite <- Qmult_assoc, <- Qpower_plus by discriminate.
    replace (z + - z)%Z with 0%Z by lia. change ((10 # 1) ^ 0)%Q with 1%Q. ring.
Qed.

Lemma parse_unsigned_decimal (s : string) (q : Q) :
  parse_unsigned s = Some q -> is_decimal q.
Proof.
  unfold parse_unsigned.
  destruct (split_at is_exp_mark s) as [mantissa expo].
  destruct (split_at is_dot mantissa) as [int_part frac].
  destruct (_ && _)%bool; [discriminate|].
  destruct (digits_value _ 0) as [c|]; [|discriminate].
  destruct (match expo with Some e => parse_exponent e | None => Some 0%Z end)
    as [e|]; [|discriminate].
  intro H. injection H as <-. apply decimal_power_of_ten.
Qed.

(** Where a leading minus sign sends the reading of a numeral. *)
Lemma minus_or_not {T : Type} (s : string) (A : string -> T) (B : T) :
  match s with
  | String "-"%char rest => A rest
  | _ => B
  end = B \/
  exists rest,
    match s with
    | String "-"%char rest => A rest
    | _ => B
    end = A rest.
Proof.
  destruct s as [|c rest]; [left; reflexivity|].
  destruct c as [[|] [|] [|] [|] [|] [|] [|] [|]];
    first [left; reflexivity | right; exists rest; reflexivity].
Qed.

Lemma parse_decimal (s : string) (q : Q) : parse s = Num q -> is_decimal q.
Proof.
  unfold parse.
  destruct (String.eqb s "Infinity"); [discriminate|].
  destruct (String.eqb s "-Infinity"); [discriminate|].
  destruct (minus_or_not s
              (fun rest => match parse_unsigned rest with
                           | Some q => Num (- q)
                           | None => NaN
                           end)
              (match parse_unsigned s with
               | Some q => Num q
               | None => NaN
               end)) as [E|[rest E]]; rewrite E.
  - destruct (parse_unsigned s) as [q0|] eqn:U; [|discriminate].
    intro H. injection H as <-. now apply (parse_unsigned_decimal s).
  - destruct (parse_unsigned rest) as [q0|] eqn:U; [|discriminate].
    intro H. injection H as <-.
    apply decimal_opp. now apply (parse_unsigned_decimal rest).
Qed.

Lemma decimal_or_zero_decimal (x : option string) : is_decimal (decimal_or_zero x).
Proof.
  destruct x as [s|]; simpl; [|apply decimal_zero].
  destruct (parse s) as [q| |] eqn:P; try apply decimal_zero.
  now apply (parse_decimal s).
Qed.

(** What the conversion renders reads back as the exact product. *)
Lemma toBaseUnits_reads_back (x : option string) (p : nat) :
  (decimal_or_zero (Some (toBaseUnits x p)) == decimal_or_zero x * scale p)%Q.
Proof.
  rewrite toBaseUnits_exact. apply toString_reads_back.
  apply decimal_scaled. apply decimal_or_zero_decimal.
Qed.

(** ** The withdraw state machine *)

(** C1 (as amended): when an invocation starts from a store whose [txid] is
    unset and whose [txStatus] is not ['success'], the store it leaves behind
    has [txStatus = 'success'] exactly when [txid] is set and non-empty; a
    broadcast that returns a non-empty identifier yields ['success'] with that
    identifier as [txid], and one that returns the empty string yields
    ['failed'] with [txid] still unset. *)
Theorem txStatus_success_iff_txid_from_unset (c : Scope) (s : State) :
  txid s = None ->
  txStatus (withdraw s) <> Some success ->
  status_matches_txid (after_handleConfirm c s) /\
  (forall id,
      guard_rejects c = false ->
      truthy_string (Some id) = true ->
      (forall input, handleStakingAction c input = Returned (Some id)) ->
      txStatus (withdraw (after_handleConfirm c s)) = Some success /\
      txid (after_handleConfirm c s) = Some id) /\
  (guard_rejects c = false ->
   (forall input, handleStakingAction c input = Returned (Some EmptyString)) ->
   txStatus (withdraw (after_handleConfirm c s)) = Some failed /\
   txid (after_handleConfirm c s) = None).
Proof.
  intros Hid Hst. split; [|split].
  - unfold status_matches_txid. destruct (guard_rejects c) eqn:G.
    + rewrite (after_rejected c s G), Hid. simpl. split; [contradiction|discriminate].
    + destruct (after_accepted c s G) as (input & _ & E). rewrite E.
      destruct (handleStakingAction c input) as [[[|a rest]|]|e];
        simpl; rewrite ?Hid; simpl; split; intro H;
        try reflexivity; try discriminate; contradiction.
  - intros id G NonEmpty Broadcast.
    destruct (after_accepted c s G) as (input & _ & E). rewrite E, Broadcast.
    destruct id as [|a rest]; [discriminate|]. split; reflexivity.
  - intros G Broadcast.
    destruct (after_accepted c s G) as (input & _ & E). rewrite E, Broadcast.
    split; [reflexivity|exact Hid].
Qed.

Lemma txStatus_success_iff_txid_from_unset_witness :
  txid fresh_state = None /\
  txStatus (withdraw fresh_state) <> Some success /\
  status_matches_txid (after_handleConfirm accepted_scope fresh_state) /\
  txStatus (withdraw (after_handleConfirm accepted_scope fresh_state)) = Some success /\
  txid (after_handleConfirm accepted_scope fresh_state) = Some "ABC123".
Proof.
  pose (c := accepted_scope).
  assert (Hid : txid fresh_state = None) by reflexivity.
  assert (Hst : txStatus (withdraw fresh_state) <> Some success) by discriminate.
  destruct (txStatus_success_iff_txid_from_unset c fresh_state Hid Hst)
    as (Inv & Ok & _).
  split; [exact Hid|]. split; [exact Hst|]. split; [exact Inv|].
  apply (Ok "ABC123"); reflexivity.
Defined.

(** C1, as stated, fails: a first invocation whose broadcast returns
    ["ABC123"] followed by a second one whose broadcast returns the empty
    string leaves [txStatus = 'failed'] next to the earlier, non-empty
    [txid]. *)
Lemma failed_status_beside_earlier_txid :
  ~ status_matches_txid (after_handleConfirm retry_scope after_first_success).
Proof.
  unfold status_matches_txid. vm_compute. intros [_ H].
  discriminate (H eq_refl).
Qed.

(** C2 (as amended): every invocation that gets past the guard, whatever the
    broadcast does (identifier, empty identifier or exception), resets
    [loading] to false and advances the workflow to the status step exactly
    once, as its last two effects, and completes without an exception; so
    after such an invocation [loading] is false. *)
Theorem accepted_invocation_resets_loading_and_advances (c : Scope) (s : State) :
  guard_rejects c = false ->
  loading (after_handleConfirm c s) = false /\
  length (filter is_advance_to_status (trace (handleConfirm c))) = 1%nat /\
  length (filter is_loading_reset (trace (handleConfirm c))) = 1%nat /\
  (exists before,
      trace (handleConfirm c) =
      (before ++ [Dispatched (SET_LOADING false); Advanced Status])%list) /\
  completion (handleConfirm c) = Returned tt.
Proof.
  intro G. destruct (accepted_run c G) as [input E].
  unfold after_handleConfirm. rewrite E. unfold trace, completion. simpl fst. simpl snd.
  destruct (handleStakingAction c input) as [[[|a rest]|]|e]; simpl;
    (repeat split; try reflexivity);
    match goal with
    | |- exists before, ?x :: ?y :: ?z :: ?w :: ?r = _ =>
        first [ (exists [x; y; z; w]; reflexivity) | (exists [x; y; z]; reflexivity) ]
    end.
Qed.

Lemma accepted_invocation_resets_loading_and_advances_witness :
  guard_rejects thrown_scope = false /\
  loading (after_handleConfirm thrown_scope fresh_state) = false /\
  length (filter is_advance_to_status (trace (handleConfirm thrown_scope))) = 1%nat.
Proof.
  pose (c := thrown_scope).
  assert (G : guard_rejects c = false) by reflexivity.
  destruct (accepted_invocation_resets_loading_and_advances c fresh_state G)
    as (L & A & _).
  split; [exact G|]. split; [exact L|exact A].
Defined.

(** C2, as stated, fails: an invocation made while [loading] is true is
    turned away by the guard and leaves [loading] true. *)
Lemma rejected_invocation_leaves_loading_set :
  loading (after_handleConfirm in_flight_scope in_flight_state) <> false.
Proof. vm_compute. discriminate. Qed.

(** C3: an invocation made while [loading] is true, or while the gas limit,
    the gas price, the derivation parameters, the account id or the wallet is
    absent, does nothing: it has no effect at all (so nothing is dispatched
    and the signing and broadcast collaborator is not called) and every field
    of the store is as before.  The guard is part of the callback, so each
    invocation evaluates it. *)
Theorem guard_rejection_is_noop (c : Scope) :
  state_loading c = true \/ gasLimit c = None \/ gasPrice c = None \/
  bip44Params c = None \/ state_accountId c = None \/ wallet c = None ->
  handleConfirm c = ([], Returned tt) /\
  filter is_staking_call (trace (handleConfirm c)) = [] /\
  forall s, after_handleConfirm c s = s.
Proof.
  intro H.
  assert (G : guard_rejects c = true).
  { unfold guard_rejects.
    destruct H as [H|[H|[H|[H|[H|H]]]]]; rewrite H; simpl;
      repeat rewrite ?andb_false_r, ?andb_false_l, ?orb_true_r; auto;
      destruct (state_loading c); simpl; auto;
      repeat rewrite ?andb_false_r, ?andb_false_l; auto. }
  rewrite (rejected_run c G). repeat split.
  intro s. now apply after_rejected.
Qed.

Lemma guard_rejection_is_noop_witness :
  state_loading in_flight_scope = true /\
  handleConfirm in_flight_scope = ([], Returned tt) /\
  after_handleConfirm in_flight_scope in_flight_state = in_flight_state.
Proof.
  pose (c := in_flight_scope).
  assert (L : state_loading c = true) by reflexivity.
  destruct (guard_rejection_is_noop c (or_introl L)) as (R & _ & S).
  split; [exact L|]. split; [exact R|apply S].
Defined.

(** C4 (the code at the failing input): when the broadcast throws, the
    guard-passing invocation logs the error and completes without
    re-throwing, but it never assigns [txStatus]: the store keeps the
    status it had (here unset), not ['failed']. *)
Theorem thrown_broadcast_leaves_txStatus_unassigned :
  guard_rejects thrown_scope = false /\
  filter is_error_log (trace (handleConfirm thrown_scope))
  = [Logged rejection "handleConfirm" "handleConfirm error"] /\
  completion (handleConfirm thrown_scope) = Returned tt /\
  filter is_txStatus_assignment (trace (handleConfirm thrown_scope)) = [] /\
  txStatus (withdraw (after_handleConfirm thrown_scope fresh_state)) = None /\
  txStatus (withdraw (after_handleConfirm thrown_scope fresh_state)) <> Some failed.
Proof.
  vm_compute. repeat split; discriminate.
Qed.

(** C9: in every invocation that gets past the guard, the first effect is the
    dispatch setting [loading] to true and the call to the signing and
    broadcast collaborator comes right after it (and only there); from that
    first dispatch on, at every point that still has the exit-loading
    dispatch ahead of it, and so in particular up to and just after the
    assignment of [txStatus], [loading] is true. *)
Theorem loading_set_before_submit_and_held (c : Scope) (s : State) :
  guard_rejects c = false ->
  (exists input rest,
      trace (handleConfirm c) =
      Dispatched (SET_LOADING true) :: StakingActionCalled input :: rest /\
      filter is_staking_call rest = []) /\
  (forall before later,
      trace (handleConfirm c) = (before ++ later)%list ->
      before <> [] ->
      existsb is_loading_reset later = true ->
      loading (run_events s before) = true) /\
  (forall before payload later,
      trace (handleConfirm c) =
      (before ++ Dispatched (SET_WITHDRAW payload) :: later)%list ->
      loading (run_events s before) = true /\
      loading (run_events s (before ++ [Dispatched (SET_WITHDRAW payload)])) = true).
Proof.
  intro G. destruct (accepted_run c G) as [input E].
  unfold trace. rewrite E. simpl fst.
  assert (Held : forall before later,
             submit_events input (handleStakingAction c input) = (before ++ later)%list ->
             before <> [] ->
             existsb is_loading_reset later = true ->
             loading (run_events s before) = true).
  { intros before later Split NE R.
    pose proof (submit_events_hold_loading s input (handleStakingAction c input)) as H.
    rewrite Split in H. destruct before as [|ev before]; [contradiction|].
    simpl in H. simpl. now apply (loading_held_sound later). }
  split; [|split].
  - destruct (handleStakingAction c input) as [[[|a rest]|]|e]; simpl;
      eexists; eexists; split; reflexivity.
  - exact Held.
  - intros before payload later Split.
    assert (R : existsb is_loading_reset later = true).
    { destruct (handleStakingAction c input) as [[[|a rest]|]|e]; simpl in Split;
        repeat (destruct before as [|? before]; simpl in Split;
                [inversion Split; subst; try reflexivity|
                 injection Split as ? Split; subst]);
        try discriminate; destruct before; discriminate. }
    assert (NE : before <> []).
    { intro Z. subst before.
      destruct (handleStakingAction c input) as [[[|a rest]|]|e]; discriminate. }
    split.
    + apply (Held before (Dispatched (SET_WITHDRAW payload) :: later)); auto.
    + apply (Held (before ++ [Dispatched (SET_WITHDRAW payload)])%list later); auto.
      * now rewrite <- app_assoc.
      * destruct before; discriminate.
Qed.

Lemma loading_set_before_submit_and_held_witness :
  guard_rejects accepted_scope = false /\
  loading (run_events fresh_state
             [Dispatched (SET_LOADING true);
              StakingActionCalled sample_request;
              Dispatched (SET_WITHDRAW (txStatus_payload success))]) = true.
Proof.
  pose (c := accepted_scope).
  assert (G : guard_rejects c = false) by reflexivity.
  destruct (loading_set_before_submit_and_held c fresh_state G) as (_ & Held & _).
  split; [exact G|].
  apply (Held _ [Dispatched (SET_TXID "ABC123"); Dispatched (SET_LOADING false);
                 Advanced Status]).
  - reflexivity.
  - discriminate.
  - reflexivity.
Defined.

(** ** The withdrawal request and the balance check *)

(** C5 (as amended): the fee field of the built request is the rendering of
    exactly [gasPrice * 10^precision] and the value field that of exactly
    [cryptoAmount * 10^precision], with the withdrawn asset's precision and
    without rounding; whenever the product is a whole number the field is
    its base-unit integer string, and reads back as the product.  With
    precision 6, amount ["10"] and gas price ["0.5"] the fee is ["500000"]
    and the value ["10000000"]. *)
Theorem request_amounts_are_exact_products
    (c : Scope) (bip : BIP44Params) (gl gp : string) (st : State) :
  let request := stakingActionInput c bip gl gp st in
  let fee_product := (decimal_or_zero (Some gp) * scale (precision (asset c)))%Q in
  let value_product :=
    (decimal_or_zero (Some (cryptoAmount (withdraw st)))
     * scale (precision (asset c)))%Q in
  fee (chainSpecific request) = toString (Num fee_product) /\
  value request = toString (Num value_product) /\
  (forall n, (fee_product == inject_Z n)%Q ->
             fee (chainSpecific request) = string_of_Z n /\
             is_integer_string (fee (chainSpecific request)) = true /\
             (decimal_or_zero (Some (fee (chainSpecific request))) == fee_product)%Q) /\
  (forall n, (value_product == inject_Z n)%Q ->
             value request = string_of_Z n /\
             is_integer_string (value request) = true /\
             (decimal_or_zero (Some (value request)) == value_product)%Q).
Proof.
  simpl. rewrite !toBaseUnits_exact.
  split; [reflexivity|]. split; [reflexivity|].
  split; intros n E; now apply whole_value_rendering.
Qed.

Lemma request_amounts_are_exact_products_witness :
  (decimal_or_zero (Some "0.5") * scale 6 == inject_Z 500000)%Q /\
  (decimal_or_zero (Some "10") * scale 6 == inject_Z 10000000)%Q /\
  fee (chainSpecific sample_request) = "500000" /\
  value sample_request = "10000000".
Proof.
  assert (F : (decimal_or_zero (Some "0.5") * scale 6 == inject_Z 500000)%Q)
    by (vm_compute; reflexivity).
  assert (V : (decimal_or_zero (Some "10") * scale 6 == inject_Z 10000000)%Q)
    by (vm_compute; reflexivity).
  destruct (request_amounts_are_exact_products accepted_scope sample_bip44Params
              "200000" "0.5" fresh_state) as (_ & _ & Fee & Value).
  split; [exact F|]. split; [exact V|]. split.
  - exact (proj1 (Fee 500000%Z F)).
  - exact (proj1 (Value 10000000%Z V)).
Defined.

(** C5, as stated, fails: with precision 6 an amount of ["0.0000001"] gives
    the value field ["0.1"], which is not a base-unit integer string. *)
Lemma sub_unit_amount_is_not_an_integer_string :
  value dust_request = "0.1" /\ is_integer_string (value dust_request) <> true.
Proof. vm_compute. split; [reflexivity|discriminate]. Qed.

(** C8 (as amended): for every precision [P] and every amount [A] the
    conversion to base units is exactly [A * 10^P], not [round (A * 10^P)]:
    the string it yields is the rendering of that product and reads back as
    that product, nothing rounded and no digit lost, so in particular
    without floating-point error for [P] up to 18; the two coincide
    whenever [A * 10^P] is a whole number (the amount has at most [P] decimal
    places), and the string is then the integer string of
    [round (A * 10^P)]. *)
Theorem toBaseUnits_is_the_unrounded_product (A : option string) (P : nat) :
  toBaseUnits A P = toString (Num (decimal_or_zero A * scale P)) /\
  (decimal_or_zero (Some (toBaseUnits A P)) == decimal_or_zero A * scale P)%Q /\
  forall n : Z,
    (decimal_or_zero A * scale P == inject_Z n)%Q ->
    round (decimal_or_zero A * scale P) = n /\
    toBaseUnits A P = string_of_Z (round (decimal_or_zero A * scale P)) /\
    (decimal_or_zero (Some (toBaseUnits A P)) == decimal_or_zero A * scale P)%Q.
Proof.
  split; [apply toBaseUnits_exact|]. split; [apply toBaseUnits_reads_back|].
  intros n E. rewrite (round_whole _ _ E). split; [reflexivity|].
  rewrite toBaseUnits_exact.
  destruct (whole_value_rendering _ n E) as (S & _ & R). now split.
Qed.

Lemma toBaseUnits_is_the_unrounded_product_witness :
  (decimal_or_zero (Some "1.000000000000000001") * scale 18
   == inject_Z 1000000000000000001)%Q /\
  toBaseUnits (Some "1.000000000000000001") 18 = "1000000000000000001".
Proof.
  assert (E : (decimal_or_zero (Some "1.000000000000000001") * scale 18
               == inject_Z 1000000000000000001)%Q) by (vm_compute; reflexivity).
  split; [exact E|].
  destruct (toBaseUnits_is_the_unrounded_product (Some "1.000000000000000001") 18)
    as (_ & _ & W).
  destruct (W _ E) as (R & S & _). rewrite S, R. reflexivity.
Defined.

(** C8, as stated, fails: at precision 1 the amount ["0.15"] converts to
    ["1.5"], not to the rounded ["2"] (and not to any whole number). *)
Lemma conversion_does_not_round :
  toBaseUnits (Some "0.15") 1 = "1.5" /\
  string_of_Z (round (decimal_or_zero (Some "0.15") * scale 1)) = "2" /\
  toBaseUnits (Some "0.15") 1
  <> string_of_Z (round (decimal_or_zero (Some "0.15") * scale 1)).
Proof. vm_compute. repeat split; discriminate. Qed.

(** C6: the balance check is true exactly when the fee-asset balance minus
    the estimated gas (base units divided by [10^precision] of the fee asset)
    is at least zero, a balance or an estimate that is absent or not a finite
    decimal numeral counting as zero; the check is a total function.  With
    balance ["1.0"] and 2,000,000 base units of gas at precision 6 it is
    false. *)
Theorem hasEnoughBalanceForGas_formula
    (feeAssetBalance : option string) (st : State) (feeAsset : Asset) :
  (hasEnoughBalanceForGas feeAssetBalance st feeAsset = true <->
   (0 <= decimal_or_zero feeAssetBalance
         - decimal_or_zero (estimatedGasCrypto (withdraw st))
           / scale (precision feeAsset))%Q) /\
  (forall s, isFinite (bn (Str s)) = false ->
             hasEnoughBalanceForGas (Some s) st feeAsset
             = hasEnoughBalanceForGas (Some "0") st feeAsset) /\
  hasEnoughBalanceForGas None st feeAsset
  = hasEnoughBalanceForGas (Some "0") st feeAsset /\
  (forall s, isFinite (bn (Str s)) = false ->
             hasEnoughBalanceForGas feeAssetBalance (with_estimatedGas st (Some s)) feeAsset
             = hasEnoughBalanceForGas feeAssetBalance (with_estimatedGas st (Some "0")) feeAsset) /\
  hasEnoughBalanceForGas feeAssetBalance (with_estimatedGas st None) feeAsset
  = hasEnoughBalanceForGas feeAssetBalance (with_estimatedGas st (Some "0")) feeAsset /\
  hasEnoughBalanceForGas (Some "1.0") (with_estimatedGas st (Some "2000000")) osmo
  = false.
Proof.
  assert (Z : forall s, isFinite (bn (Str s)) = false ->
                        decimal_or_zero (Some s) = decimal_or_zero (Some "0")).
  { intros s H. simpl in *. destruct (parse s); [discriminate|reflexivity..]. }
  repeat split.
  - rewrite hasEnoughBalanceForGas_value. apply Qle_bool_iff.
  - rewrite hasEnoughBalanceForGas_value. apply Qle_bool_iff.
  - intros s H. now rewrite !hasEnoughBalanceForGas_value, (Z s H).
  - intros s H. rewrite !hasEnoughBalanceForGas_value.
    simpl estimatedGasCrypto. now rewrite (Z s H).
Qed.

Lemma hasEnoughBalanceForGas_formula_witness :
  isFinite (bn (Str "not a number")) = false /\
  hasEnoughBalanceForGas (Some "not a number") fresh_state osmo
  = hasEnoughBalanceForGas (Some "0") fresh_state osmo.
Proof.
  assert (H : isFinite (bn (Str "not a number")) = false) by reflexivity.
  split; [exact H|].
  destruct (hasEnoughBalanceForGas_formula None fresh_state osmo) as (_ & M & _).
  exact (M "not a number" H).
Defined.

(** C7 (as amended): with the balance fixed the check can only go from true
    to false as the estimated gas grows; with the gas fixed it can only go
    from false to true as the balance grows; and with an estimated gas of zero
    it is true for every balance that is not negative. *)
Theorem hasEnoughBalanceForGas_monotone (feeAsset : Asset) :
  (forall balance st1 st2,
      (decimal_or_zero (estimatedGasCrypto (withdraw st1))
       <= decimal_or_zero (estimatedGasCrypto (withdraw st2)))%Q ->
      hasEnoughBalanceForGas balance st2 feeAsset = true ->
      hasEnoughBalanceForGas balance st1 feeAsset = true) /\
  (forall balance1 balance2 st,
      (decimal_or_zero balance1 <= decimal_or_zero balance2)%Q ->
      hasEnoughBalanceForGas balance1 st feeAsset = true ->
      hasEnoughBalanceForGas balance2 st feeAsset = true) /\
  (forall balance st,
      (decimal_or_zero (estimatedGasCrypto (withdraw st)) == 0)%Q ->
      (0 <= decimal_or_zero balance)%Q ->
      hasEnoughBalanceForGas balance st feeAsset = true).
Proof.
  pose proof (Qinv_lt_0_compat _ (scale_positive (precision feeAsset))) as K.
  repeat split.
  - intros balance st1 st2 Le. rewrite !hasEnoughBalanceForGas_value, !Qle_bool_iff.
    unfold Qdiv. set (k := (/ scale (precision feeAsset))%Q) in *.
    intro H.
    assert (M : (decimal_or_zero (estimatedGasCrypto (withdraw st1)) * k
                 <= decimal_or_zero (estimatedGasCrypto (withdraw st2)) * k)%Q).
    { apply Qmult_le_compat_r; [exact Le|]. now apply Qlt_le_weak. }
    lra.
  - intros balance1 balance2 st Le. rewrite !hasEnoughBalanceForGas_value, !Qle_bool_iff.
    intro H. lra.
  - intros balance st Zero Pos. rewrite hasEnoughBalanceForGas_value, Qle_bool_iff.
    rewrite Zero. unfold Qdiv. rewrite Qmult_0_l. lra.
Qed.

Lemma hasEnoughBalanceForGas_monotone_witness :
  (decimal_or_zero (estimatedGasCrypto (withdraw (with_estimatedGas fresh_state (Some "1000"))))
   <= decimal_or_zero (estimatedGasCrypto (withdraw (with_estimatedGas fresh_state (Some "2000")))))%Q /\
  hasEnoughBalanceForGas (Some "1.0") (with_estimatedGas fresh_state (Some "2000")) osmo = true /\
  hasEnoughBalanceForGas (Some "1.0") (with_estimatedGas fresh_state (Some "1000")) osmo = true.
Proof.
  assert (Le : (decimal_or_zero (estimatedGasCrypto (withdraw (with_estimatedGas fresh_state (Some "1000"))))
                <= decimal_or_zero (estimatedGasCrypto (withdraw (with_estimatedGas fresh_state (Some "2000")))))%Q)
    by (vm_compute; discriminate).
  assert (H : hasEnoughBalanceForGas (Some "1.0") (with_estimatedGas fresh_state (Some "2000")) osmo = true)
    by reflexivity.
  split; [exact Le|]. split; [exact H|].
  destruct (hasEnoughBalanceForGas_monotone osmo) as (Gas & _).
  exact (Gas (Some "1.0") _ _ Le H).
Defined.

(** C7, as stated, fails: with an estimated gas of zero the check is false
    for the balance ["-1"]. *)
Lemma negative_balance_fails_with_zero_gas :
  decimal_or_zero (estimatedGasCrypto (withdraw (with_estimatedGas fresh_state (Some "0")))) = 0%Q /\
  hasEnoughBalanceForGas (Some "-1") (with_estimatedGas fresh_state (Some "0")) osmo
  <> true.
Proof. vm_compute. split; [reflexivity|discriminate]. Qed.

(** ** Asset resolution *)



(** ** Further properties of the callback *)

Lemma accepted_request (c : Scope) :
  guard_rejects c = false ->
  exists bip gl gp st,
    bip44Params c = Some bip /\ gasLimit c = Some gl /\ gasPrice c = Some gp /\
    state c = Some st /\ loading st = false /\
    confirm_request c = Some (stakingActionInput c bip gl gp st) /\
    handleConfirm c =
    (submit_events (stakingActionInput c bip gl gp st)
       (handleStakingAction c (stakingActionInput c bip gl gp st)),
     Returned tt).
Proof.
  intro G.
  destruct (guard_accepts c G) as (bip & gl & gp & st & Hb & Hl & Hp & Hs & L & E).
  exists bip, gl, gp, st. repeat (split; [assumption|]). split.
  - unfold confirm_request. now rewrite Hb, Hl, Hp, Hs.
  - rewrite E. apply submit_unfolds.
Qed.

Lemma run_submit_events (s : State) (input : StakingActionInput)
    (outcome : Completion (option string)) :
  run_events s (submit_events input outcome) = store_after s outcome.
Proof.
  destruct outcome as [[[|a rest]|]|e]; reflexivity.
Qed.

(** Past the guard the run opens with the loading dispatch and the call,
    made on the request built from the values the guard found. *)
Lemma accepted_first_events (c : Scope) :
  guard_rejects c = false ->
  exists bip gl gp st rest,
    bip44Params c = Some bip /\ gasLimit c = Some gl /\ gasPrice c = Some gp /\
    state c = Some st /\
    trace (handleConfirm c)
    = Dispatched (SET_LOADING true)
      :: StakingActionCalled (stakingActionInput c bip gl gp st) :: rest.
Proof.
  intro G.
  destruct (accepted_request c G)
    as (bip & gl & gp & st & Hb & Hl & Hp & Hs & _ & _ & E).
  rewrite E. unfold trace. simpl fst.
  exists bip, gl, gp, st.
  destruct (handleStakingAction c (stakingActionInput c bip gl gp st))
    as [[[|a rest]|]|e]; simpl; eexists; repeat split; eassumption || reflexivity.
Qed.

(** X1: an invocation that gets past the guard leaves the store in a state
    fixed by what the broadcast did with the one request it was handed: a
    non-empty identifier gives [loading = false], [txStatus = 'success'] and
    that identifier as [txid]; an empty or an undefined identifier gives
    [loading = false], [txStatus = 'failed'] and the old [txid]; an exception
    resets [loading] and changes nothing else. *)
Theorem store_after_accepted_invocation (c : Scope) :
  guard_rejects c = false ->
  exists input,
    confirm_request c = Some input /\
    forall s, after_handleConfirm c s = store_after s (handleStakingAction c input).
Proof.
  intro G.
  destruct (accepted_request c G) as (bip & gl & gp & st & _ & _ & _ & _ & _ & R & E).
  exists (stakingActionInput c bip gl gp st). split; [exact R|].
  intro s. unfold after_handleConfirm. rewrite E. apply run_submit_events.
Qed.

Lemma store_after_accepted_invocation_witness :
  guard_rejects (sample_scope fresh_state (Returned None)) = false /\
  after_handleConfirm (sample_scope fresh_state (Returned None)) fresh_state
  = {| loading := false;
       withdraw := {| cryptoAmount := "10"; estimatedGasCrypto := Some "2000000";
                      txStatus := Some failed |};
       txid := None;
       accountId := Some "cosmos:osmosis-1:osmo1account" |}.
Proof.
  assert (G : guard_rejects (sample_scope fresh_state (Returned None)) = false)
    by reflexivity.
  split; [exact G|].
  destruct (store_after_accepted_invocation _ G) as (input & _ & S).
  rewrite (S fresh_state). reflexivity.
Defined.

(** X2: whatever the scope and whatever the broadcast does, an invocation
    never changes the account id, the withdrawal amount or the estimated gas
    held in the store. *)
Theorem invocation_keeps_account_and_amounts (c : Scope) (s : State) :
  accountId (after_handleConfirm c s) = accountId s /\
  cryptoAmount (withdraw (after_handleConfirm c s)) = cryptoAmount (withdraw s) /\
  estimatedGasCrypto (withdraw (after_handleConfirm c s))
  = estimatedGasCrypto (withdraw s).
Proof.
  destruct (guard_rejects c) eqn:G.
  - rewrite (after_rejected c s G). auto.
  - destruct (after_accepted c s G) as (input & _ & E). rewrite E, run_submit_events.
    destruct (handleStakingAction c input) as [[[|a rest]|]|e]; simpl; auto.
Qed.

(** X3: an invocation logs nothing when the guard turns it away or when the
    broadcast returns a non-empty identifier; it logs exactly one error
    otherwise: the very error the broadcast threw, or a fresh error with an
    empty message when the identifier is empty or undefined. *)
Theorem errors_logged_by_invocation (c : Scope) :
  (guard_rejects c = true -> errors_logged (trace (handleConfirm c)) = []) /\
  (guard_rejects c = false ->
   exists input,
     confirm_request c = Some input /\
     errors_logged (trace (handleConfirm c))
     = logged_errors (handleStakingAction c input)).
Proof.
  split; intro G.
  - now rewrite (rejected_run c G).
  - destruct (accepted_request c G) as (bip & gl & gp & st & _ & _ & _ & _ & _ & R & E).
    exists (stakingActionInput c bip gl gp st). split; [exact R|].
    rewrite E. unfold trace. simpl fst.
    destruct (handleStakingAction c (stakingActionInput c bip gl gp st))
      as [[[|a rest]|]|e]; reflexivity.
Qed.

Lemma errors_logged_by_invocation_witness :
  guard_rejects thrown_scope = false /\
  errors_logged (trace (handleConfirm thrown_scope)) = [rejection].
Proof.
  assert (G : guard_rejects thrown_scope = false) by reflexivity.
  split; [exact G|].
  destruct (errors_logged_by_invocation thrown_scope) as (_ & A).
  destruct (A G) as (input & _ & L). rewrite L. reflexivity.
Defined.

Lemma truthy_string_false (o : option string) :
  truthy_string o = false <-> o = None \/ o = Some EmptyString.
Proof.
  destruct o as [[|a rest]|]; simpl; split; intro H; auto; try discriminate.
  - destruct H as [H|H]; discriminate.
Qed.

Lemma truthy_false {A : Type} (o : option A) : truthy o = false <-> o = None.
Proof. destruct o; simpl; split; intro H; auto; discriminate. Qed.

(** X4: an invocation does nothing exactly when [loading] is set, or the
    derivation parameters, the dispatcher or the wallet is missing, or the
    gas limit, the gas price or the account id of the store is missing or
    the empty string (a missing store counts as a missing account id); in
    every other case it has effects. *)
Theorem noop_exactly_when_guard_fails (c : Scope) :
  trace (handleConfirm c) = [] <->
  (state_loading c = true \/ bip44Params c = None \/ dispatch c = None \/
   gasLimit c = None \/ gasLimit c = Some EmptyString \/
   gasPrice c = None \/ gasPrice c = Some EmptyString \/
   state_accountId c = None \/ state_accountId c = Some EmptyString \/
   wallet c = None).
Proof.
  assert (Cond : guard_rejects c = true <->
                 (state_loading c = true \/ bip44Params c = None \/ dispatch c = None \/
                  gasLimit c = None \/ gasLimit c = Some EmptyString \/
                  gasPrice c = None \/ gasPrice c = Some EmptyString \/
                  state_accountId c = None \/ state_accountId c = Some EmptyString \/
                  wallet c = None)).
  { unfold guard_rejects.
    rewrite orb_true_iff, negb_true_iff, !andb_false_iff.
    rewrite !truthy_false, !truthy_string_false. tauto. }
  rewrite <- Cond. split.
  - intro T. destruct (guard_rejects c) eqn:G; [reflexivity|].
    destruct (accepted_run c G) as [input E]. rewrite E in T. unfold trace in T.
    simpl in T. destruct (handleStakingAction c input) as [[[|a rest]|]|e];
      discriminate.
  - intro G. now rewrite (rejected_run c G).
Qed.

Lemma noop_exactly_when_guard_fails_witness :
  state_loading in_flight_scope = true /\
  trace (handleConfirm in_flight_scope) = [].
Proof.
  assert (L : state_loading in_flight_scope = true) by reflexivity.
  split; [exact L|].
  apply (proj2 (noop_exactly_when_guard_fails in_flight_scope)). now left.
Defined.

(** X5: the request of an invocation that gets past the guard is the first
    thing after the loading dispatch; its action is always [Unstake], its
    validator the contract address, its asset and derivation parameters the
    ones closed over, its gas the gas limit string as it is, and its fee and
    value the gas price and the store's amount scaled by the precision of
    that one asset. *)
Theorem request_of_accepted_invocation (c : Scope) :
  guard_rejects c = false ->
  exists input rest st,
    trace (handleConfirm c)
    = Dispatched (SET_LOADING true) :: StakingActionCalled input :: rest /\
    state c = Some st /\
    action input = Unstake /\
    validator input = contractAddress c /\
    input_asset input = asset c /\
    bip44Params c = Some (input_bip44Params input) /\
    gasLimit c = Some (gas (chainSpecific input)) /\
    fee (chainSpecific input) = toBaseUnits (gasPrice c) (precision (asset c)) /\
    value input
    = toBaseUnits (Some (cryptoAmount (withdraw st))) (precision (asset c)).
Proof.
  intro G.
  destruct (accepted_first_events c G)
    as (bip & gl & gp & st & rest & Hb & Hl & Hp & Hs & T).
  exists (stakingActionInput c bip gl gp st), rest, st.
  split; [exact T|]. split; [exact Hs|].
  rewrite Hb, Hl, Hp. simpl. auto 10.
Qed.

Lemma request_of_accepted_invocation_witness :
  guard_rejects accepted_scope = false /\
  exists input rest st,
    trace (handleConfirm accepted_scope)
    = Dispatched (SET_LOADING true) :: StakingActionCalled input :: rest /\
    state accepted_scope = Some st /\
    action input = Unstake.
Proof.
  assert (G : guard_rejects accepted_scope = false) by reflexivity.
  split; [exact G|].
  destruct (request_of_accepted_invocation accepted_scope G)
    as (input & rest & st & T & S & A & _).
  exists input, rest, st. auto.
Defined.

Lemma toBaseUnits_of_zero (x : option string) (p : nat) :
  (decimal_or_zero x == 0)%Q -> toBaseUnits x p = "0".
Proof.
  intro Z. rewrite toBaseUnits_exact.
  apply (toString_of_whole_value _ 0%Z). rewrite Z. apply Qmult_0_l.
Qed.

Lemma decimal_of_unusable (s : string) :
  s = EmptyString \/ isFinite (bn (Str s)) = false ->
  (decimal_or_zero (Some s) == 0)%Q.
Proof.
  intros [->|H]; [reflexivity|].
  simpl in *. destruct (parse s); [discriminate|reflexivity..].
Qed.

(** X6: the guard does not look at the amount or at what the gas price says:
    an invocation that gets past it with an empty or non-numeric amount in
    the store still hands a request to the staking action, with the value
    ["0"]; and with a non-numeric gas price, with the fee ["0"]. *)
Theorem unusable_amounts_are_submitted_as_zero (c : Scope) (st : State) :
  guard_rejects c = false ->
  state c = Some st ->
  exists input rest,
    trace (handleConfirm c)
    = Dispatched (SET_LOADING true) :: StakingActionCalled input :: rest /\
    (cryptoAmount (withdraw st) = EmptyString \/
     isFinite (bn (Str (cryptoAmount (withdraw st)))) = false ->
     value input = "0") /\
    (forall gp, gasPrice c = Some gp -> isFinite (bn (Str gp)) = false ->
                fee (chainSpecific input) = "0").
Proof.
  intros G Hs.
  destruct (accepted_first_events c G)
    as (bip & gl & gp & st' & rest & Hb & Hl & Hp & Hs' & T).
  rewrite Hs in Hs'. injection Hs' as <-.
  exists (stakingActionInput c bip gl gp st), rest.
  split; [exact T|]. split.
  - intro Bad. simpl. apply toBaseUnits_of_zero. now apply decimal_of_unusable.
  - intros gp' Hgp Bad. rewrite Hp in Hgp. injection Hgp as <-.
    simpl. apply toBaseUnits_of_zero. apply decimal_of_unusable. now right.
Qed.

Lemma unusable_amounts_are_submitted_as_zero_witness :
  guard_rejects (sample_scope empty_amount_state (Returned (Some "ABC123"))) = false /\
  exists input rest,
    trace (handleConfirm (sample_scope empty_amount_state (Returned (Some "ABC123"))))
    = Dispatched (SET_LOADING true) :: StakingActionCalled input :: rest /\
    value input = "0".
Proof.
  assert (G : guard_rejects
                (sample_scope empty_amount_state (Returned (Some "ABC123"))) = false)
    by reflexivity.
  split; [exact G|].
  destruct (unusable_amounts_are_submitted_as_zero _ empty_amount_state G eq_refl)
    as (input & rest & T & V & _).
  exists input, rest. split; [exact T|]. apply V. left. reflexivity.
Defined.

(** X7: while an accepted invocation is under way, from its first dispatch
    until its exit-loading dispatch, the guard turns away any invocation that
    sees the store of that moment; once it has completed, the guard lets an
    invocation with the refreshed store through again: nothing makes the
    callback one-shot. *)
Theorem guard_closed_in_flight_open_after (c : Scope) (s : State) :
  guard_rejects c = false ->
  state c = Some s ->
  (forall before later,
      trace (handleConfirm c) = (before ++ later)%list ->
      before <> [] ->
      existsb is_loading_reset later = true ->
      handleConfirm (with_state c (run_events s before)) = ([], Returned tt)) /\
  guard_rejects (with_state c (after_handleConfirm c s)) = false.
Proof.
  intros G Hs. split.
  - intros before later Split NE R. apply rejected_run.
    destruct (accepted_run c G) as [input E]. rewrite E in Split.
    unfold trace in Split. simpl in Split.
    pose proof (submit_events_hold_loading s input (handleStakingAction c input)) as H.
    rewrite Split in H. destruct before as [|ev before]; [contradiction|].
    simpl in H.
    assert (L : loading (run_events s (ev :: before)) = true)
      by (simpl; now apply (loading_held_sound later)).
    unfold guard_rejects.
    change (state_loading (with_state c (run_events s (ev :: before))))
      with (loading (run_events s (ev :: before))).
    now rewrite L.
  - destruct (after_accepted c s G) as (input & _ & E).
    assert (A : accountId (after_handleConfirm c s) = accountId s).
    { rewrite E, run_submit_events.
      destruct (handleStakingAction c input) as [[[|a rest]|]|e]; reflexivity. }
    assert (L : loading (after_handleConfirm c s) = false).
    { rewrite E, run_submit_events.
      destruct (handleStakingAction c input) as [[[|a rest]|]|e]; reflexivity. }
    unfold guard_rejects, state_loading, state_accountId in *. simpl.
    rewrite L, A. rewrite Hs in G. simpl in G.
    destruct (loading s); [discriminate|exact G].
Qed.

Lemma guard_closed_in_flight_open_after_witness :
  guard_rejects accepted_scope = false /\
  state accepted_scope = Some fresh_state /\
  guard_rejects (with_state accepted_scope
                   (after_handleConfirm accepted_scope fresh_state)) = false.
Proof.
  assert (G : guard_rejects accepted_scope = false) by reflexivity.
  assert (S : state accepted_scope = Some fresh_state) by reflexivity.
  split; [exact G|]. split; [exact S|].
  exact (proj2 (guard_closed_in_flight_open_after accepted_scope fresh_state G S)).
Defined.

(** Comparing a difference with zero, without the division. *)
Lemma threshold_arith (b g k : Q) :
  (0 < k)%Q -> ((0 <= b - g / k)%Q <-> (g <= b * k)%Q).
Proof.
  intro P.
  assert (NZ : ~ (k == 0)%Q) by (intro Z; rewrite Z in P; discriminate).
  split; intro H.
  - assert (D : (g / k <= b)%Q) by lra.
    apply (Qmult_le_compat_r _ _ k) in D; [|lra].
    unfold Qdiv in D. rewrite <- Qmult_assoc, (Qmult_comm (/ k)), Qmult_inv_r in D
      by exact NZ.
    now rewrite Qmult_1_r in D.
  - assert (D : (g / k <= b)%Q) by (apply Qle_shift_div_r; assumption).
    lra.
Qed.

(** X8: the gas check is true exactly when the estimated gas, in base units,
    does not exceed the balance scaled to base units; a balance that just
    equals the gas is enough. *)
Theorem hasEnoughBalanceForGas_threshold
    (balance : option string) (st : State) (feeAsset : Asset) :
  hasEnoughBalanceForGas balance st feeAsset = true <->
  (decimal_or_zero (estimatedGasCrypto (withdraw st))
   <= decimal_or_zero balance * scale (precision feeAsset))%Q.
Proof.
  rewrite hasEnoughBalanceForGas_value, Qle_bool_iff.
  apply threshold_arith. apply scale_positive.
Qed.

Lemma hasEnoughBalanceForGas_threshold_witness :
  (decimal_or_zero (estimatedGasCrypto (withdraw fresh_state))
   <= decimal_or_zero (Some "2.0") * scale (precision osmo))%Q /\
  hasEnoughBalanceForGas (Some "2.0") fresh_state osmo = true.
Proof.
  assert (Le : (decimal_or_zero (estimatedGasCrypto (withdraw fresh_state))
                <= decimal_or_zero (Some "2.0") * scale (precision osmo))%Q)
    by (vm_compute; discriminate).
  split; [exact Le|].
  exact (proj2 (hasEnoughBalanceForGas_threshold (Some "2.0") fresh_state osmo) Le).
Defined.


(** ** Properties of a render *)

(** What a render that returned a view went through, and the view it
    returned. *)
Lemma Confirm_rendered {ReduxState : Type} (k : Collaborators ReduxState)
    (store : ReduxState) (accountId : option string) (h : Hooks) (v : ConfirmView) :
  Confirm k store accountId h = Returned (Some v) ->
  exists id a days m bal bip st d text memo,
    query_assetId k (hook_query h) = Returned id /\
    selectAssetById k store id = Returned (Some a) /\
    assetIdToUnbondingDays k id = Returned days /\
    selectMarketDataById k store id = Returned (Some m) /\
    selectPortfolioCryptoHumanBalanceByFilter k store (assetId a)
      (accountId_or_empty accountId) = Returned bal /\
    selectBIP44ParamsByAccountId k store (accountId_or_empty accountId)
    = Returned bip /\
    hook_state h = Some st /\ hook_dispatch h = Some d /\
    translate k "common.confirm" = Returned text /\
    memoNote_of k h = Returned memo /\
    v = {| onCancel := emit (Advanced Info);
           headerText := "modals.confirm.withdraw.header";
           onConfirm := handleConfirm (confirmScope h a bip);
           isDisabled := negb (hasEnoughBalanceForGas bal st a);
           view_loading := loading st;
           loadingText := text;
           summary_icon := Some (icon a);
           summary_name := Some (name a);
           summary_amount := cryptoAmount (withdraw st);
           summary_symbol := symbol a;
           summary_unbondingDays := days;
           gas_symbol := symbol a;
           memoNote := memo;
           notEnoughGas :=
             if hasEnoughBalanceForGas bal st a then None else Some (symbol a) |}.
Proof.
  unfold Confirm, and_then. intro H.
  destruct (query_assetId k (hook_query h)) as [id|e] eqn:Hid; [|discriminate].
  destruct (selectAssetById k store id) as [[a|]|e] eqn:Ha; try discriminate;
    destruct (assetIdToUnbondingDays k id) as [days|e'] eqn:Hdays; try discriminate;
    destruct (selectMarketDataById k store id) as [m|e''] eqn:Hm; try discriminate.
  destruct m as [m|]; [|discriminate]. simpl in H.
  destruct (selectPortfolioCryptoHumanBalanceByFilter k store (assetId a)
              (accountId_or_empty accountId)) as [bal|e1] eqn:Hbal; [|discriminate].
  destruct (selectBIP44ParamsByAccountId k store (accountId_or_empty accountId))
    as [bip|e2] eqn:Hbip; [|discriminate].
  destruct (hook_state h) as [st|] eqn:Hs; [|discriminate].
  destruct (hook_dispatch h) as [d|] eqn:Hd; [|discriminate].
  destruct (translate k "common.confirm") as [text|e3] eqn:Ht; [|discriminate].
  destruct (memoNote_of k h) as [memo|e4] eqn:Hmemo; [|discriminate].
  injection H as <-.
  exists id, a, days, m, bal, bip, st, d, text, memo.
  repeat split; first [assumption | reflexivity].
Qed.

Lemma memoNote_of_thrown {ReduxState : Type} (k : Collaborators ReduxState)
    (h : Hooks) (e : Error) :
  memoNote_of k h = Thrown e ->
  exists w,
    hook_wallet h = Some w /\
    (walletCanEditMemo k w = Thrown e \/
     walletCanEditMemo k w = Returned true /\
     (translate k "defi.memoNote.title" = Thrown e \/
      translate k "defi.memoNote.body" = Thrown e)).
Proof.
  unfold memoNote_of, and_then.
  destruct (hook_wallet h) as [w|]; [|discriminate].
  intro H. exists w. split; [reflexivity|].
  destruct (walletCanEditMemo k w) as [[|]|e1]; try discriminate.
  - right. split; [reflexivity|].
    destruct (translate k "defi.memoNote.title") as [title|e2].
    + destruct (translate k "defi.memoNote.body") as [body|e3]; [discriminate|].
      right. injection H as <-; reflexivity.
    + left. injection H as <-; reflexivity.
  - left. injection H as <-; reflexivity.
Qed.

(** X9: given what the hooks returned, a render whose identifier is built
    and whose lookup finds no asset throws "Asset not found for AssetId"
    with that identifier, provided the unbonding days and market data calls
    made before the check return; and whatever a render throws is the
    exception of one of the collaborator calls it made, that asset error, or
    the error of reading [price] off missing market data.  The second check,
    for the fee asset, is not among them: it never fires. *)
Theorem Confirm_throw_paths {ReduxState : Type}
    (k : Collaborators ReduxState) (store : ReduxState)
    (accountId : option string) (h : Hooks) :
  (forall id days m,
      query_assetId k (hook_query h) = Returned id ->
      selectAssetById k store id = Returned None ->
      assetIdToUnbondingDays k id = Returned days ->
      selectMarketDataById k store id = Returned m ->
      Confirm k store accountId h
      = Thrown {| message := "Asset not found for AssetId " ++ id |}) /\
  (forall e,
      Confirm k store accountId h = Thrown e ->
      query_assetId k (hook_query h) = Thrown e \/
      exists id,
        query_assetId k (hook_query h) = Returned id /\
        (selectAssetById k store id = Thrown e \/
         assetIdToUnbondingDays k id = Thrown e \/
         selectMarketDataById k store id = Thrown e \/
         (selectAssetById k store id = Returned None /\
          e = {| message := "Asset not found for AssetId " ++ id |}) \/
         exists a,
           selectAssetById k store id = Returned (Some a) /\
           ((selectMarketDataById k store id = Returned None /\
             e = price_of_undefined) \/
            selectPortfolioCryptoHumanBalanceByFilter k store (assetId a)
              (accountId_or_empty accountId) = Thrown e \/
            selectBIP44ParamsByAccountId k store (accountId_or_empty accountId)
            = Thrown e \/
            translate k "common.confirm" = Thrown e \/
            exists w,
              hook_wallet h = Some w /\
              (walletCanEditMemo k w = Thrown e \/
               walletCanEditMemo k w = Returned true /\
               (translate k "defi.memoNote.title" = Thrown e \/
                translate k "defi.memoNote.body" = Thrown e))))).
Proof.
  split.
  - intros id days m Hid Ha Hdays Hm. unfold Confirm, and_then.
    now rewrite Hid, Ha, Hdays, Hm.
  - intros e H. unfold Confirm, and_then in H.
    destruct (query_assetId k (hook_query h)) as [id|e0] eqn:Hid;
      [|left; injection H as <-; reflexivity].
    right. exists id. split; [reflexivity|].
    destruct (selectAssetById k store id) as [oa|e1] eqn:Ha; [|left; injection H as <-; reflexivity].
    destruct (assetIdToUnbondingDays k id) as [days|e2] eqn:Hdays;
      [|right; left; injection H as <-; reflexivity].
    destruct (selectMarketDataById k store id) as [m|e3] eqn:Hm;
      [|right; right; left; injection H as <-; reflexivity].
    destruct oa as [a|].
    + right; right; right; right. exists a. split; [reflexivity|].
      destruct m as [m|]; simpl in H.
      * destruct (selectPortfolioCryptoHumanBalanceByFilter k store (assetId a)
                    (accountId_or_empty accountId)) as [bal|e4];
          [|right; left; injection H as <-; reflexivity].
        destruct (selectBIP44ParamsByAccountId k store (accountId_or_empty accountId))
          as [bip|e5]; [|right; right; left; injection H as <-; reflexivity].
        destruct (hook_state h) as [st|]; [|discriminate].
        destruct (hook_dispatch h) as [d|]; [|discriminate].
        destruct (translate k "common.confirm") as [text|e6];
          [|right; right; right; left; injection H as <-; reflexivity].
        destruct (memoNote_of k h) as [memo|e7] eqn:Hmemo; [discriminate|].
        right; right; right; right. injection H as <-.
        now apply memoNote_of_thrown.
      * left. injection H as <-. split; reflexivity.
    + right; right; right; left. injection H as <-. split; reflexivity.
Qed.

Lemma Confirm_throw_paths_witness :
  query_assetId sample_collaborators (hook_query unknown_route_hooks)
  = Returned "cosmos:cosmoshub-4/slip44:118" /\
  selectAssetById sample_collaborators tt "cosmos:cosmoshub-4/slip44:118"
  = Returned None /\
  Confirm sample_collaborators tt None unknown_route_hooks
  = Thrown {| message :=
                "Asset not found for AssetId cosmos:cosmoshub-4/slip44:118" |}.
Proof.
  assert (I : query_assetId sample_collaborators (hook_query unknown_route_hooks)
              = Returned "cosmos:cosmoshub-4/slip44:118") by reflexivity.
  assert (M : selectAssetById sample_collaborators tt "cosmos:cosmoshub-4/slip44:118"
              = Returned None) by reflexivity.
  split; [exact I|]. split; [exact M|].
  exact (proj1 (Confirm_throw_paths sample_collaborators tt None unknown_route_hooks)
           _ _ _ I M eq_refl eq_refl).
Defined.

(** X10: a render returns nothing only when the store or the dispatcher of
    the context is missing, and the callback built in that render then does
    nothing when invoked; with either of them missing no view is ever
    returned. *)
Theorem nothing_rendered_nothing_submitted {ReduxState : Type}
    (k : Collaborators ReduxState) (store : ReduxState)
    (accountId : option string) (h : Hooks) :
  (Confirm k store accountId h = Returned None ->
   (hook_state h = None \/ hook_dispatch h = None) /\
   exists id a bip,
     query_assetId k (hook_query h) = Returned id /\
     selectAssetById k store id = Returned (Some a) /\
     selectBIP44ParamsByAccountId k store (accountId_or_empty accountId)
     = Returned bip /\
     handleConfirm (confirmScope h a bip) = ([], Returned tt)) /\
  (hook_state h = None \/ hook_dispatch h = None ->
   forall v, Confirm k store accountId h <> Returned (Some v)).
Proof.
  split.
  - unfold Confirm, and_then. intro H.
    destruct (query_assetId k (hook_query h)) as [id|e] eqn:Hid; [|discriminate].
    destruct (selectAssetById k store id) as [[a|]|e] eqn:Ha; try discriminate;
      destruct (assetIdToUnbondingDays k id) as [days|e'];
      try discriminate;
      destruct (selectMarketDataById k store id) as [m|e'']; try discriminate.
    destruct (read_price m); [|discriminate].
    destruct (selectPortfolioCryptoHumanBalanceByFilter k store (assetId a)
                (accountId_or_empty accountId)) as [bal|e1]; [|discriminate].
    destruct (selectBIP44ParamsByAccountId k store (accountId_or_empty accountId))
      as [bip|e2] eqn:Hbip; [|discriminate].
    assert (M : hook_state h = None \/ hook_dispatch h = None).
    { destruct (hook_state h); [|now left].
      destruct (hook_dispatch h); [|now right].
      destruct (translate k "common.confirm"); [|discriminate].
      destruct (memoNote_of k h); discriminate. }
    split; [exact M|]. exists id, a, bip. repeat split; try assumption.
    apply rejected_run. unfold guard_rejects, state_loading, state_accountId.
    simpl. destruct M as [M|M]; rewrite M; simpl.
    + now rewrite andb_false_r.
    + rewrite andb_false_r. simpl. apply orb_true_r.
  - intros M v H. destruct (Confirm_rendered k store accountId h v H)
      as (id & a & days & m & bal & bip & st & d & text & memo
          & _ & _ & _ & _ & _ & _ & Hs & Hd & _).
    destruct M as [M|M]; congruence.
Qed.

Lemma nothing_rendered_nothing_submitted_witness :
  Confirm sample_collaborators tt (Some "cosmos:osmosis-1:osmo1account")
          (sample_hooks None) = Returned None /\
  hook_state (sample_hooks None) = None.
Proof.
  assert (H : Confirm sample_collaborators tt (Some "cosmos:osmosis-1:osmo1account")
                      (sample_hooks None) = Returned None) by reflexivity.
  split; [exact H|].
  destruct (nothing_rendered_nothing_submitted sample_collaborators tt
              (Some "cosmos:osmosis-1:osmo1account") (sample_hooks None)) as (N & _).
  destruct (N H) as ([M|M] & _); [exact M|discriminate M].
Defined.

(** X11: a rendered view always shows the asset stored under the identifier
    of the route: its icon, name and symbol in the summary (the fallback to
    an empty symbol is never taken), the same symbol for the gas figures, the
    unbonding days of that identifier, and the amount held in the store. *)
Theorem view_shows_the_route_asset {ReduxState : Type}
    (k : Collaborators ReduxState) (store : ReduxState)
    (accountId : option string) (h : Hooks) (v : ConfirmView) :
  Confirm k store accountId h = Returned (Some v) ->
  exists id a st,
    query_assetId k (hook_query h) = Returned id /\
    selectAssetById k store id = Returned (Some a) /\
    hook_state h = Some st /\
    summary_icon v = Some (icon a) /\
    summary_name v = Some (name a) /\
    summary_symbol v = symbol a /\
    gas_symbol v = symbol a /\
    assetIdToUnbondingDays k id = Returned (summary_unbondingDays v) /\
    summary_amount v = cryptoAmount (withdraw st).
Proof.
  intro H. destruct (Confirm_rendered k store accountId h v H)
    as (id & a & days & m & bal & bip & st & d & text & memo
        & Hid & Ha & Hdays & _ & _ & _ & Hs & _ & _ & _ & ->).
  exists id, a, st. simpl. auto 10.
Qed.

Lemma view_shows_the_route_asset_witness :
  exists v,
    Confirm sample_collaborators tt (Some "cosmos:osmosis-1:osmo1account")
            (sample_hooks (Some fresh_state)) = Returned (Some v) /\
    summary_symbol v = "OSMO".
Proof.
  destruct (Confirm sample_collaborators tt (Some "cosmos:osmosis-1:osmo1account")
              (sample_hooks (Some fresh_state))) as [[v|]|e] eqn:H;
    try (vm_compute in H; discriminate H).
  exists v. split; [reflexivity|].
  destruct (view_shows_the_route_asset sample_collaborators tt _ _ v H)
    as (id & a & st & Hid & Found & _ & _ & _ & S & _).
  rewrite S. vm_compute in Hid. injection Hid as <-.
  vm_compute in Found. injection Found as <-. reflexivity.
Defined.

(** X12: in a rendered view the confirm button is enabled exactly when the
    estimated gas of the store does not exceed the balance found for the fee
    asset and the account id of the properties (the empty account id when
    that is undefined), scaled to base units; the gas warning, carrying the
    fee asset's symbol, is shown exactly when the button is disabled; and the
    view's loading flag is the store's. *)
Theorem confirm_disabled_exactly_when_gas_short {ReduxState : Type}
    (k : Collaborators ReduxState) (store : ReduxState)
    (accountId : option string) (h : Hooks) (v : ConfirmView) :
  Confirm k store accountId h = Returned (Some v) ->
  exists id a st balance,
    query_assetId k (hook_query h) = Returned id /\
    selectAssetById k store id = Returned (Some a) /\
    hook_state h = Some st /\
    selectPortfolioCryptoHumanBalanceByFilter k store (assetId a)
      (accountId_or_empty accountId) = Returned balance /\
    (isDisabled v = false <->
     (decimal_or_zero (estimatedGasCrypto (withdraw st))
      <= decimal_or_zero balance * scale (precision a))%Q) /\
    (isDisabled v = true <-> notEnoughGas v = Some (symbol a)) /\
    (isDisabled v = false <-> notEnoughGas v = None) /\
    view_loading v = loading st.
Proof.
  intro H. destruct (Confirm_rendered k store accountId h v H)
    as (id & a & days & m & bal & bip & st & d & text & memo
        & Hid & Ha & _ & _ & Hbal & _ & Hs & _ & _ & _ & ->).
  exists id, a, st, bal. simpl.
  split; [exact Hid|]. split; [exact Ha|]. split; [exact Hs|]. split; [exact Hbal|].
  rewrite <- (threshold_arith _ _ _ (scale_positive (precision a))).
  rewrite <- Qle_bool_iff, <- hasEnoughBalanceForGas_value.
  destruct (hasEnoughBalanceForGas bal st a); simpl;
    repeat split; intro; auto; discriminate.
Qed.

Lemma confirm_disabled_exactly_when_gas_short_witness :
  exists v,
    Confirm sample_collaborators tt (Some "cosmos:osmosis-1:osmo1account")
            (sample_hooks (Some fresh_state)) = Returned (Some v) /\
    notEnoughGas v = Some "OSMO".
Proof.
  destruct (Confirm sample_collaborators tt (Some "cosmos:osmosis-1:osmo1account")
              (sample_hooks (Some fresh_state))) as [[v|]|e] eqn:H;
    try (vm_compute in H; discriminate H).
  exists v. split; [reflexivity|].
  destruct (confirm_disabled_exactly_when_gas_short sample_collaborators tt _ _ v H)
    as (id & a & st & bal & Hid & Found & _ & _ & _ & W & _).
  vm_compute in Hid. injection Hid as <-.
  vm_compute in Found. injection Found as <-.
  apply W. vm_compute in H. injection H as <-. reflexivity.
Defined.

(** X13: the callback of a rendered view does not depend on the balance: with
    any other balance selector (one that returns) the render yields a view
    with the very same callback, so the disabled flag is all that keeps an
    account short of gas from submitting. *)
Theorem callback_ignores_the_balance {ReduxState : Type}
    (k : Collaborators ReduxState) (store : ReduxState)
    (accountId : option string) (h : Hooks) (v : ConfirmView)
    (f : ReduxState -> string -> string -> Completion (option string)) :
  Confirm k store accountId h = Returned (Some v) ->
  (forall asset account, exists balance, f store asset account = Returned balance) ->
  exists v',
    Confirm (with_balance k f) store accountId h = Returned (Some v') /\
    onConfirm v' = onConfirm v.
Proof.
  intros H F. destruct (Confirm_rendered k store accountId h v H)
    as (id & a & days & m & bal & bip & st & d & text & memo
        & Hid & Ha & Hdays & Hm & _ & Hbip & Hs & Hd & Ht & Hmemo & ->).
  destruct (F (assetId a) (accountId_or_empty accountId)) as [bal' Hbal'].
  assert (Memo : memoNote_of (with_balance k f) h = Returned memo) by exact Hmemo.
  unfold Confirm, and_then.
  change (query_assetId (with_balance k f) (hook_query h))
    with (query_assetId k (hook_query h)).
  rewrite Hid. simpl selectAssetById. rewrite Ha.
  simpl assetIdToUnbondingDays. rewrite Hdays.
  simpl selectMarketDataById. rewrite Hm.
  simpl. rewrite Hbal', Hbip, Hs, Hd, Ht, Memo.
  eexists. split; reflexivity.
Qed.

Lemma callback_ignores_the_balance_witness :
  exists v v',
    Confirm sample_collaborators tt (Some "cosmos:osmosis-1:osmo1account")
            (sample_hooks (Some fresh_state)) = Returned (Some v) /\
    Confirm (with_balance sample_collaborators (fun _ _ _ => Returned (Some "5")))
            tt (Some "cosmos:osmosis-1:osmo1account")
            (sample_hooks (Some fresh_state)) = Returned (Some v') /\
    isDisabled v = true /\ isDisabled v' = false /\
    onConfirm v' = onConfirm v.
Proof.
  destruct (Confirm sample_collaborators tt (Some "cosmos:osmosis-1:osmo1account")
              (sample_hooks (Some fresh_state))) as [[v|]|e] eqn:H;
    try (vm_compute in H; discriminate H).
  destruct (callback_ignores_the_balance sample_collaborators tt _ _ v
              (fun _ _ _ => Returned (Some "5")) H) as (v' & H' & Same).
  { intros asset account. now exists (Some "5"). }
  exists v, v'. split; [reflexivity|]. split; [exact H'|].
  vm_compute in H. injection H as <-.
  vm_compute in H'. injection H' as <-.
  repeat split; reflexivity.
Defined.

(** X14: the callback of a rendered view, when invoked, either does nothing
    or hands over one request whose validator is the contract address of the
    route, whose asset is the one stored under the route's identifier, whose
    derivation parameters are those found for the account id of the
    properties (for the empty account id when that is undefined), and whose
    gas is the gas limit held in local state; it does nothing whenever the
    view shows loading. *)
Theorem request_of_a_rendered_view {ReduxState : Type}
    (k : Collaborators ReduxState) (store : ReduxState)
    (accountId : option string) (h : Hooks) (v : ConfirmView) :
  Confirm k store accountId h = Returned (Some v) ->
  (view_loading v = true -> onConfirm v = ([], Returned tt)) /\
  (onConfirm v = ([], Returned tt) \/
   exists input rest,
     trace (onConfirm v)
     = Dispatched (SET_LOADING true) :: StakingActionCalled input :: rest /\
     action input = Unstake /\
     validator input = query_contractAddress (hook_query h) /\
     (exists id,
         query_assetId k (hook_query h) = Returned id /\
         selectAssetById k store id = Returned (Some (input_asset input))) /\
     selectBIP44ParamsByAccountId k store (accountId_or_empty accountId)
     = Returned (Some (input_bip44Params input)) /\
     hook_gasLimit h = Some (gas (chainSpecific input))).
Proof.
  intro H. destruct (Confirm_rendered k store accountId h v H)
    as (id & a & days & m & bal & bip & st & d & text & memo
        & Hid & Ha & _ & _ & _ & Hbip & Hs & _ & _ & _ & ->).
  simpl. set (c := confirmScope h a bip).
  split.
  - intro L. apply rejected_run. unfold guard_rejects, state_loading.
    simpl. now rewrite Hs, L.
  - destruct (guard_rejects c) eqn:G.
    + left. now apply rejected_run.
    + right. destruct (accepted_first_events c G)
        as (bip' & gl & gp & st' & rest & Hb & Hl & _ & _ & T).
      exists (stakingActionInput c bip' gl gp st'), rest.
      split; [exact T|]. simpl. simpl in Hb. subst bip.
      repeat split; auto. exists id. auto.
Qed.

Lemma request_of_a_rendered_view_witness :
  exists v,
    Confirm sample_collaborators tt (Some "cosmos:osmosis-1:osmo1account")
            (sample_hooks (Some fresh_state)) = Returned (Some v) /\
    (onConfirm v = ([], Returned tt) \/
     exists input rest,
       trace (onConfirm v)
       = Dispatched (SET_LOADING true) :: StakingActionCalled input :: rest /\
       validator input = "osmovaloper1validator").
Proof.
  destruct (Confirm sample_collaborators tt (Some "cosmos:osmosis-1:osmo1account")
              (sample_hooks (Some fresh_state))) as [[v|]|e] eqn:H;
    try (vm_compute in H; discriminate H).
  exists v. split; [reflexivity|].
  destruct (request_of_a_rendered_view sample_collaborators tt _ _ v H)
    as (_ & [N|(input & rest & T & _ & V & _)]).
  - left. exact N.
  - right. exists input, rest. split; [exact T|exact V].
Defined.
